(** * CRM proxy service (server.js): request handlers and their contract

    A shallow embedding of the Express route handlers of [server.js].
    JSON payloads are an inductive type of JavaScript values; the handlers
    are programs over the two upstream clients ([hubspotAxios] and the
    HubSpot SDK search client), written in a small monad for [async]
    functions with [await], [throw] and [try]/[catch].  Running a handler
    against an upstream yields the response sent and the ordered log of the
    upstream calls issued.  Logging ([console.error]), the health check
    (a clock reading) and static file serving are left out. *)

From Stdlib Require Import ZArith List String Ascii Bool Lia DecimalString.
Import ListNotations.
Open Scope string_scope.
Set Warnings "-register-all".

(* ================================================================== *)
(** ** JavaScript values *)

(** JSON-shaped JavaScript values.  A number [JNum n] is the Number that
    the integer literal [n] denotes, the double nearest to [n] (the
    handlers do no arithmetic); strings are sequences of code units below
    256; an object is its list of fields in insertion order. *)
Inductive JSValue : Type :=
| JUndefined
| JNull
| JBool (b : bool)
| JNum (n : Z)
| JStr (s : string)
| JArr (elems : list JSValue)
| JObj (fields : list (string * JSValue)).

Module JS.

(** [!!v]: [undefined], [null], [false], [0] and [''] are falsy. *)
Definition truthy (v : JSValue) : bool :=
  match v with
  | JUndefined | JNull => false
  | JBool b => b
  | JNum n => negb (n =? 0)%Z
  | JStr s => negb (s =? "")
  | JArr _ | JObj _ => true
  end.

Definition nullish (v : JSValue) : bool :=
  match v with
  | JUndefined | JNull => true
  | _ => false
  end.

(** [a || b] *)
Definition or (a b : JSValue) : JSValue := if truthy a then a else b.

(** [v === 'lit'] and [v === n] against a string or number literal. *)
Definition strict_eq_str (v : JSValue) (lit : string) : bool :=
  match v with JStr s => s =? lit | _ => false end.

Definition strict_eq_num (v : JSValue) (lit : Z) : bool :=
  match v with JNum n => (n =? lit)%Z | _ => false end.

(** Field of an object literal or parsed JSON object. *)
Fixpoint lookup (k : string) (fs : list (string * JSValue)) : JSValue :=
  match fs with
  | [] => JUndefined
  | (k', v) :: rest => if k' =? k then v else lookup k rest
  end.

(** [v.k] for a value that is neither [undefined] nor [null]: own fields of
    an object, [length] of an array or string, [undefined] otherwise. *)
Definition prop (v : JSValue) (k : string) : JSValue :=
  match v with
  | JObj fs => lookup k fs
  | JArr l => if k =? "length" then JNum (Z.of_nat (List.length l)) else JUndefined
  | JStr s => if k =? "length" then JNum (Z.of_nat (String.length s)) else JUndefined
  | _ => JUndefined
  end.

(** [v[0]] for a value that is neither [undefined] nor [null]. *)
Definition first (v : JSValue) : JSValue :=
  match v with
  | JArr (x :: _) => x
  | JStr (String c _) => JStr (String c "")
  | JObj fs => lookup "0" fs
  | _ => JUndefined
  end.

(** [v?.k] *)
Definition opt_prop (v : JSValue) (k : string) : JSValue :=
  if nullish v then JUndefined else prop v k.

Definition string_of_Z (n : Z) : string := NilZero.string_of_int (Z.to_int n).

(** [Number::toString] for the Numbers that integer literals denote: all
    the digits below 2^53, then the fewest digits that still name the
    double, in exponent form from 1e21 on. *)
Module Number.
Local Open Scope Z_scope.

(** The double nearest to the integer [n >= 0], a tie going to the even
    mantissa; 2^1024 stands for a value too large for a double. *)
Definition nearest (n : Z) : Z :=
  if n <? 2 ^ 53 then n
  else
    let ulp := 2 ^ (Z.log2 n - 52) in
    let q := n / ulp in
    let r := n mod ulp in
    let up := if 2 * r <? ulp then false
              else if ulp <? 2 * r then true
              else Z.odd q in
    (if up then q + 1 else q) * ulp.

(** Twice the bounds of the reals that round to the double [d >= 2^53],
    and whether the bounds themselves round to it (its mantissa is even). *)
Definition low2 (d : Z) : Z :=
  let ulp := 2 ^ (Z.log2 d - 52) in
  if d =? 2 ^ Z.log2 d then 2 * d - ulp / 2 else 2 * d - ulp.

Definition high2 (d : Z) : Z := 2 * d + 2 ^ (Z.log2 d - 52).

Definition closed (d : Z) : bool := Z.even (d / 2 ^ (Z.log2 d - 52)).

Definition rounds_to (d v : Z) : bool :=
  if closed d
  then (low2 d <=? 2 * v) && (2 * v <=? high2 d)
  else (low2 d <? 2 * v) && (2 * v <? high2 d).

Definition digits_of (n : Z) : Z := Z.of_nat (String.length (string_of_Z n)).

(** The multiple of [10^p] that stands for [d], if one rounds to [d]: of
    the two around [d] the nearer, on a tie the one with the even digits. *)
Definition candidate (d p : Z) : option Z :=
  let s := d / 10 ^ p in
  let below := s * 10 ^ p in
  let above := (s + 1) * 10 ^ p in
  match rounds_to d below, rounds_to d above with
  | true, true =>
      if d - below <? above - d then Some below
      else if above - d <? d - below then Some above
      else if Z.even s then Some below else Some above
  | true, false => Some below
  | false, true => Some above
  | false, false => None
  end.

(** The value of fewest significant digits that rounds to [d]: one digit
    is tried first, then one more at a time. *)
Fixpoint shortest (d : Z) (places : nat) (p : Z) : Z :=
  match places with
  | O => d
  | S places' =>
      match candidate d p with
      | Some v => v
      | None => shortest d places' (p - 1)
      end
  end.

Fixpoint strip_zeros (fuel : nat) (s : Z) : Z :=
  match fuel with
  | O => s
  | S fuel' =>
      if (s mod 10 =? 0) && negb (s =? 0) then strip_zeros fuel' (s / 10) else s
  end.

(** The double [d >= 0], an integer, printed. *)
Definition print (d : Z) : string :=
  if d <? 2 ^ 53 then string_of_Z d
  else if 2 ^ 1024 <=? d then "Infinity"
  else
    let v := shortest d (Z.to_nat (digits_of d)) (digits_of d - 1) in
    if v <? 10 ^ 21 then string_of_Z v
    else
      let e := digits_of v - 1 in
      match string_of_Z (strip_zeros (Z.to_nat e) v) with
      | String c EmptyString => String c ("e+" ++ string_of_Z e)
      | String c rest => String c ("." ++ rest ++ "e+" ++ string_of_Z e)
      | EmptyString => EmptyString
      end.

Definition to_string (n : Z) : string :=
  if n <? 0 then "-" ++ print (nearest (- n)) else print (nearest n).

End Number.

(** [String(v)], as a template literal [`${v}`] converts its holes. *)
Fixpoint to_string (v : JSValue) : string :=
  match v with
  | JUndefined => "undefined"
  | JNull => "null"
  | JBool true => "true"
  | JBool false => "false"
  | JNum n => Number.to_string n
  | JStr s => s
  | JArr l =>
      let elem x := if nullish x then "" else to_string x in
      (fix join (l : list JSValue) : string :=
         match l with
         | [] => ""
         | [x] => elem x
         | x :: rest => elem x ++ "," ++ join rest
         end) l
  | JObj _ => "[object Object]"
  end.

(** A thrown [Error]: its [name] and [message], and for a failed axios call
    that got an HTTP reply, the reply. *)
Record Error (R : Type) : Type := mkError {
  name : string;
  message : string;
  response : option R;
}.
Arguments mkError {R}.
Arguments name {R}.
Arguments message {R}.
Arguments response {R}.

(** [Error.prototype.toString] *)
Definition error_to_string {R} (e : Error R) : string :=
  if name e =? "" then message e
  else if message e =? "" then name e
  else name e ++ ": " ++ message e.

Definition TypeError {R} (msg : string) : Error R :=
  mkError "TypeError" msg None.

End JS.

(* ================================================================== *)
(** ** The upstream clients *)

Module Axios.

(** What an axios call resolves with: the parsed body and the HTTP status. *)
Record Response : Type := mkResponse {
  data : JSValue;
  status : Z;
}.

(** The three axios calls the handlers issue:
    [get(url, { params })], [post(url, payload)] and [put(url)]. *)
Inductive Request : Type :=
| Get (url : string) (params : JSValue)
| Post (url : string) (payload : JSValue)
| Put (url : string).

End Axios.

Definition JSError : Type := JS.Error Axios.Response.

(** A settled promise. *)
Inductive Settled (A : Type) : Type :=
| Fulfilled (a : A)
| Rejected (e : JSError).
Arguments Fulfilled {A}.
Arguments Rejected {A}.

(** What [searchApi.doSearch] resolves with. *)
Record SearchResponse : Type := mkSearchResponse {
  results : JSValue;
}.

(** One upstream call, as logged. *)
Inductive Call : Type :=
| CAxios (c : Axios.Request)
| CSearch (searchRequest : JSValue).

(** An [async] function body: it returns or throws, or awaits an upstream
    call and continues with how that call settled. *)
Inductive Prog (A : Type) : Type :=
| Ret (a : A)
| AwaitAxios (c : Axios.Request) (k : Settled Axios.Response -> Prog A)
| AwaitSearch (q : JSValue) (k : Settled SearchResponse -> Prog A).
Arguments Ret {A}.
Arguments AwaitAxios {A}.
Arguments AwaitSearch {A}.

Definition Async (A : Type) : Type := Prog (Settled A).

Definition ret {A} (a : A) : Async A := Ret (Fulfilled a).
Definition throw {A} (e : JSError) : Async A := Ret (Rejected e).

Fixpoint bind {A B} (m : Async A) (f : A -> Async B) : Async B :=
  match m with
  | Ret (Fulfilled a) => f a
  | Ret (Rejected e) => Ret (Rejected e)
  | AwaitAxios c k => AwaitAxios c (fun r => bind (k r) f)
  | AwaitSearch q k => AwaitSearch q (fun r => bind (k r) f)
  end.

(** [try { m } catch (error) { h error }] *)
Fixpoint try_catch {A} (m : Async A) (h : JSError -> Async A) : Async A :=
  match m with
  | Ret (Fulfilled a) => Ret (Fulfilled a)
  | Ret (Rejected e) => h e
  | AwaitAxios c k => AwaitAxios c (fun r => try_catch (k r) h)
  | AwaitSearch q k => AwaitSearch q (fun r => try_catch (k r) h)
  end.

(** [await hubspotAxios.get/post/put(...)]: a rejection is thrown. *)
Definition hubspotAxios (c : Axios.Request) : Async Axios.Response :=
  AwaitAxios c Ret.

(** [await hubspotClient.crm.contacts.searchApi.doSearch(q)] *)
Definition doSearch (q : JSValue) : Async SearchResponse :=
  AwaitSearch q Ret.

Declare Scope async_scope.
Delimit Scope async_scope with async.
Notation "x <- m ;; k" := (bind m (fun x => k))
  (at level 100, m at next level, right associativity) : async_scope.
Notation "'try' m 'catch' h" := (try_catch m h)
  (at level 100, m at level 100, h at level 100) : async_scope.
Open Scope async_scope.

(** A synchronous step that returns or throws, inside an [async] body. *)
Definition sync {A} (c : Settled A) : Async A := Ret c.

(** [v.k]: reading a property of [undefined] or [null] throws a
    [TypeError] (message as V8 words it). *)
Definition read (v : JSValue) (k : string) : Settled JSValue :=
  if JS.nullish v
  then Rejected (JS.TypeError ("Cannot read properties of " ++ JS.to_string v
                                 ++ " (reading '" ++ k ++ "')"))
  else Fulfilled (JS.prop v k).

Definition member (v : JSValue) (k : string) : Async JSValue := sync (read v k).

(** [const { k, ... } = v], [v] being the expression [src]. *)
Definition destructure (v : JSValue) (src k : string) : Async JSValue :=
  if JS.nullish v
  then throw (JS.TypeError ("Cannot destructure property '" ++ k ++ "' of '" ++ src
                              ++ "' as it is " ++ JS.to_string v ++ "."))
  else ret (JS.prop v k).

(** [l.map(f)] on the elements of an array, left to right; the first
    callback that throws ends it. *)
Fixpoint map_settled {A B} (f : A -> Settled B) (l : list A) : Settled (list B) :=
  match l with
  | [] => Fulfilled []
  | x :: rest =>
      match f x with
      | Rejected e => Rejected e
      | Fulfilled y =>
          match map_settled f rest with
          | Rejected e => Rejected e
          | Fulfilled ys => Fulfilled (y :: ys)
          end
      end
  end.

(** [arr.map(f)], [arr] being the variable [src]: only an array has [map]. *)
Definition array_map (arr : JSValue) (src : string) (f : JSValue -> Settled JSValue)
  : Async (list JSValue) :=
  match arr with
  | JArr l => sync (map_settled f l)
  | _ => throw (JS.TypeError (src ++ ".map is not a function"))
  end.

(** The CRM as one request sees it: how each call settles, given the calls
    this request has issued before it. *)
Record Upstream : Type := mkUpstream {
  axios : list Call -> Axios.Request -> Settled Axios.Response;
  search : list Call -> JSValue -> Settled SearchResponse;
}.

Fixpoint run {A} (up : Upstream) (log : list Call) (p : Prog A) : A * list Call :=
  match p with
  | Ret a => (a, log)
  | AwaitAxios c k => run up (log ++ [CAxios c]) (k (axios up log c))
  | AwaitSearch q k => run up (log ++ [CSearch q]) (k (search up log q))
  end.

(* ================================================================== *)
(** ** The pattern [/Existing ID:\s*(\d+)/] *)

Module ExistingId.

Definition is_digit (c : ascii) : bool :=
  let n := nat_of_ascii c in (48 <=? n)%nat && (n <=? 57)%nat.

(** [\s] on code units below 256: tab, line feed, vertical tab, form feed,
    carriage return, space and no-break space. *)
Definition is_space (c : ascii) : bool :=
  let n := nat_of_ascii c in
  ((9 <=? n)%nat && (n <=? 13)%nat) || (n =? 32)%nat || (n =? 160)%nat.

(** [\s*], greedy *)
Fixpoint skip_spaces (s : string) : string :=
  match s with
  | String c rest => if is_space c then skip_spaces rest else s
  | EmptyString => EmptyString
  end.

(** [\d*], greedy: the digits [s] starts with. *)
Fixpoint take_digits (s : string) : string :=
  match s with
  | String c rest => if is_digit c then String c (take_digits rest) else EmptyString
  | EmptyString => EmptyString
  end.

(** The literal part of the pattern. *)
Fixpoint strip_prefix (p s : string) : option string :=
  match p, s with
  | EmptyString, _ => Some s
  | String a p', String b s' => if Ascii.eqb a b then strip_prefix p' s' else None
  | String _ _, EmptyString => None
  end.

(** The pattern anchored at the start of [s]: capture group 1 on a match.
    A digit is no space, so giving back spaces never helps [\d+]. *)
Definition match_here (s : string) : option string :=
  match strip_prefix "Existing ID:" s with
  | Some rest =>
      match take_digits (skip_spaces rest) with
      | EmptyString => None
      | digits => Some digits
      end
  | None => None
  end.

(** [s.match(/Existing ID:\s*(\d+)/)]: capture group 1 of the leftmost
    match, [None] for [null]. *)
Fixpoint exec (s : string) : option string :=
  match match_here s with
  | Some digits => Some digits
  | None =>
      match s with
      | String _ rest => exec rest
      | EmptyString => None
      end
  end.

(** What the pattern means, for comparison with [exec]: [digits] is a
    non-empty run of digits that follows the literal and any white space. *)
Fixpoint all (p : ascii -> bool) (s : string) : bool :=
  match s with
  | String c rest => p c && all p rest
  | EmptyString => true
  end.

Definition starts_with_digit (s : string) : bool :=
  match s with
  | String c _ => is_digit c
  | EmptyString => false
  end.

Definition occurrence (s pre ws digits post : string) : Prop :=
  s = pre ++ "Existing ID:" ++ ws ++ digits ++ post
  /\ all is_space ws = true
  /\ all is_digit digits = true
  /\ digits <> EmptyString.

Definition contains_id (s : string) : Prop :=
  exists pre ws digits post, occurrence s pre ws digits post.

End ExistingId.



(** [message.match(/Existing ID:\s*(\d+)/)]: only a string has [match]. *)
Definition message_match (message : JSValue) : Async (option string) :=
  match message with
  | JStr s => ret (ExistingId.exec s)
  | _ => throw (JS.TypeError "message.match is not a function")
  end.

(** [match && match[1]]: the captured digits, or the falsy left operand. *)
Definition captured (m : option string) : JSValue :=
  match m with
  | Some g1 => JStr g1
  | None => JNull
  end.

(* ================================================================== *)
(** ** Express requests and responses *)

Module Express.

(** [req.body] (as [express.json()] left it), [req.query], [req.params]. *)
Record Request : Type := mkRequest {
  body : JSValue;
  query : list (string * JSValue);
  params : list (string * JSValue);
}.

(** The response sent: [res.status(code).json(payload)]. *)
Record Response : Type := mkResponse {
  status : Z;
  json : JSValue;
}.

End Express.

(** [res.json(payload)] and [res.status(code).json(payload)] *)
Definition res_json (payload : JSValue) : Async Express.Response :=
  ret (Express.mkResponse 200 payload).

Definition res_status_json (code : Z) (payload : JSValue) : Async Express.Response :=
  ret (Express.mkResponse code payload).

(** [error.response?.data] and [error.response?.status] *)
Definition response_data (error : JSError) : JSValue :=
  match JS.response error with
  | Some r => Axios.data r
  | None => JUndefined
  end.

Definition response_status (error : JSError) : JSValue :=
  match JS.response error with
  | Some r => JNum (Axios.status r)
  | None => JUndefined
  end.

(** [statusCode === 409 || category === 'CONFLICT'], on the caught error. *)
Definition is_conflict (e : JSError) : bool :=
  JS.strict_eq_num (response_status e) 409
  || JS.strict_eq_str (JS.opt_prop (response_data e) "category") "CONFLICT".

(** [typeof v === 'object'] for a value that is not [null] nor an array. *)
Definition is_object (v : JSValue) : bool :=
  match v with
  | JObj _ => true
  | _ => false
  end.

(** [error.response?.data || error.message] *)
Definition upstream_details (error : JSError) : JSValue :=
  JS.or (response_data error) (JStr (JS.message error)).

(** The double-quote character, for messages that quote. *)
Definition dquote : string := String (ascii_of_nat 34) EmptyString.

(** [[...].join(',')] *)
Definition join (sep : string) (l : list string) : string := String.concat sep l.

Definition strings (l : list string) : JSValue := JArr (map JStr l).

(* ================================================================== *)
(** ** The route handlers *)

Import Express.

Definition contact_properties : list string :=
  ["firstname"; "lastname"; "email"; "phone"; "address"; "jobtitle"; "company"].

Definition deal_properties : list string :=
  ["dealname"; "amount"; "dealstage"; "closedate"; "pipeline"].

Definition error_body (label : string) (details : JSValue) : JSValue :=
  JObj [("error", JStr label); ("details", details)].

(** [get(url, { params: { limit: 50, properties: [...].join(',') } })] *)
Definition list_objects (url : string) (properties : list string) : Axios.Request :=
  Axios.Get url (JObj [("limit", JNum 50);
                       ("properties", JStr (join "," properties))]).

(** [GET /api/contacts] *)
Definition get_api_contacts (req : Request) : Async Response :=
  try
    (response <- hubspotAxios
       (list_objects "/crm/v3/objects/contacts" contact_properties);;
     results <- member (Axios.data response) "results";;
     res_json (JObj [("results", JS.or results (JArr []))]))
  catch (fun error =>
    res_status_json 500
      (error_body "Failed to fetch contacts" (upstream_details error))).

(** [post('/crm/v3/objects/contacts', contactData)] *)
Definition create_contact (contactData : JSValue) : Axios.Request :=
  Axios.Post "/crm/v3/objects/contacts" contactData.

(** [POST /api/contacts] *)
Definition post_api_contacts (req : Request) : Async Response :=
  try
    (properties <- member (body req) "properties";;
     let contactData := JObj [("properties", properties)] in
     response <- hubspotAxios (create_contact contactData);;
     res_json (Axios.data response))
  catch (fun error =>
    let hubspotError := response_data error in
    let statusCode := response_status error in
    let category := JS.opt_prop hubspotError "category" in
    let message := JS.or (JS.opt_prop hubspotError "message") (JStr "") in
    if JS.strict_eq_num statusCode 409 || JS.strict_eq_str category "CONFLICT" then
      match_ <- message_match message;;
      let existingId :=
        if JS.truthy (captured match_) then captured match_ else JNull in
      if JS.truthy existingId then
        properties <- member (body req) "properties";;
        res_json (JObj [("id", existingId);
                        ("properties", JS.or properties (JObj []));
                        ("existing", JBool true)])
      else
        res_status_json 409
          (error_body "Contact already exists" (JS.or hubspotError message))
    else
      res_status_json 500
        (error_body "Failed to create contact"
           (JS.or hubspotError (JStr (JS.message error))))).

(** The search for one contact whose [email] property equals [email]. *)
Definition search_by_email (email : JSValue) : JSValue :=
  JObj [("filterGroups",
         JArr [JObj [("filters",
                      JArr [JObj [("propertyName", JStr "email");
                                  ("operator", JStr "EQ");
                                  ("value", email)]])]]);
        ("properties", strings ["firstname"; "lastname"; "email"]);
        ("limit", JNum 1)].

(** [GET /api/contacts/by-email] *)
Definition get_api_contacts_by_email (req : Request) : Async Response :=
  let email := JS.lookup "email" (query req) in
  if negb (JS.truthy email) then
    res_status_json 400
      (error_body "Missing email parameter"
         (JStr "Please provide ?email=example@domain.com"))
  else
    try
      (let searchRequest := search_by_email email in
       response <- doSearch searchRequest;;
       let results := JS.or (results response) (JArr []) in
       if JS.strict_eq_num (JS.prop results "length") 0 then
         res_json (JObj [("found", JBool false)])
       else
         let contact := JS.first results in
         id <- member contact "id";;
         properties <- member contact "properties";;
         res_json (JObj [("found", JBool true);
                         ("contact", JObj [("id", id); ("properties", properties)])]))
    catch (fun error =>
      res_status_json 500
        (error_body "Failed to search contact by email"
           (JS.or (JStr (JS.message error)) (JStr (JS.error_to_string error))))).

(** [GET /api/deals] *)
Definition get_api_deals (req : Request) : Async Response :=
  try
    (response <- hubspotAxios
       (list_objects "/crm/v3/objects/deals" deal_properties);;
     results <- member (Axios.data response) "results";;
     res_json (JObj [("results", JS.or results (JArr []))]))
  catch (fun error =>
    res_status_json 500
      (error_body "Failed to fetch deals" (upstream_details error))).

(** [`/crm/v3/objects/deals/${dealId}/associations/contacts/${contactId}/3`] *)
Definition association_url (dealId contactId : JSValue) : string :=
  "/crm/v3/objects/deals/" ++ JS.to_string dealId
    ++ "/associations/contacts/" ++ JS.to_string contactId ++ "/3".

(** Step 1, [post('/crm/v3/objects/deals', { properties: dealProperties })],
    and step 2, [put] on the association URL. *)
Definition create_deal (dealProperties : JSValue) : Axios.Request :=
  Axios.Post "/crm/v3/objects/deals" (JObj [("properties", dealProperties)]).

Definition associate (dealId contactId : JSValue) : Axios.Request :=
  Axios.Put (association_url dealId contactId).

(** [POST /api/deals] *)
Definition post_api_deals (req : Request) : Async Response :=
  dealProperties <- destructure (body req) "req.body" "dealProperties";;
  contactId <- destructure (body req) "req.body" "contactId";;
  if negb (JS.truthy dealProperties) || negb (JS.truthy contactId) then
    res_status_json 400
      (error_body "Missing dealProperties or contactId"
         (JStr ("Request body must include { dealProperties: {...}, contactId: "
                  ++ dquote ++ "123" ++ dquote ++ " }")))
  else
    try
      (dealResponse <- hubspotAxios (create_deal dealProperties);;
       let deal := Axios.data dealResponse in
       dealId <- member deal "id";;
       _ <- hubspotAxios (associate dealId contactId);;
       res_json deal)
    catch (fun error =>
      res_status_json 500
        (error_body "Failed to create deal" (upstream_details error))).

(** [`/crm/v4/objects/contacts/${contactId}/associations/deals`] *)
Definition associations_url (contactId : JSValue) : string :=
  "/crm/v4/objects/contacts/" ++ JS.to_string contactId ++ "/associations/deals".

Definition list_associations (contactId : JSValue) : Axios.Request :=
  Axios.Get (associations_url contactId) (JObj [("limit", JNum 100)]).

(** [dealIds.map((id) => ({ id }))] *)
Definition batch_inputs (dealIds : list JSValue) : JSValue :=
  JArr (map (fun id => JObj [("id", id)]) dealIds).

Definition batch_read (dealIds : list JSValue) : Axios.Request :=
  Axios.Post "/crm/v3/objects/deals/batch/read"
    (JObj [("properties", strings deal_properties);
           ("inputs", batch_inputs dealIds)]).

(** [GET /api/contacts/:contactId/deals] *)
Definition get_api_contacts_deals (req : Request) : Async Response :=
  let contactId := JS.lookup "contactId" (params req) in
  try
    (assocResponse <- hubspotAxios (list_associations contactId);;
     results <- member (Axios.data assocResponse) "results";;
     let associations := JS.or results (JArr []) in
     mapped <- array_map associations "associations"
                 (fun assoc => read assoc "toObjectId");;
     let dealIds := filter JS.truthy mapped in
     if (List.length dealIds =? 0)%nat then
       res_json (JObj [("results", JArr [])])
     else
       batchResponse <- hubspotAxios (batch_read dealIds);;
       results <- member (Axios.data batchResponse) "results";;
       let deals := JS.or results (JArr []) in
       res_json (JObj [("results", deals)]))
  catch (fun error =>
    res_status_json 500
      (error_body "Failed to fetch deals for contact" (upstream_details error))).

(** Serving one request: how the handler's promise settles (fulfilled with
    the response sent, or rejected with an error no [catch] handled) and the
    upstream calls issued, in order. *)
Definition serve (up : Upstream) (handler : Request -> Async Response) (req : Request)
  : Settled Response * list Call :=
  run up [] (handler req).

Definition sent (up : Upstream) (handler : Request -> Async Response) (req : Request)
  : Settled Response := fst (serve up handler req).

Definition calls (up : Upstream) (handler : Request -> Async Response) (req : Request)
  : list Call := snd (serve up handler req).

(** The API routes registered on [app], in source order. *)
Definition api_handlers : list (Request -> Async Response) :=
  [get_api_contacts; post_api_contacts; get_api_contacts_by_email;
   get_api_deals; post_api_deals; get_api_contacts_deals].

(** [typeof v === 'string'] *)
Definition is_string (v : JSValue) : bool :=
  match v with
  | JStr _ => true
  | _ => false
  end.

(** [hubspotError?.message || ''], on the caught error. *)
Definition hubspot_message (e : JSError) : JSValue :=
  JS.or (JS.opt_prop (response_data e) "message") (JStr EmptyString).

(* ================================================================== *)
(** ** Sample requests and upstream behaviours *)

Module Scenario.

Definition ok (data : JSValue) : Settled Axios.Response :=
  Fulfilled (Axios.mkResponse data 200).

(** What axios throws for a reply outside 2xx. *)
Definition http_error (status : Z) (data : JSValue) : JSError :=
  JS.mkError "AxiosError"
    ("Request failed with status code " ++ JS.string_of_Z status)
    (Some (Axios.mkResponse data status)).

(** What axios throws when no reply arrives. *)
Definition network_error : JSError :=
  JS.mkError "AxiosError" "connect ECONNREFUSED 127.0.0.1:443" None.

(** An upstream that settles each kind of call one fixed way. *)
Definition replies (get post put : Settled Axios.Response)
    (found : Settled SearchResponse) : Upstream :=
  mkUpstream
    (fun _ c =>
       match c with
       | Axios.Get _ _ => get
       | Axios.Post _ _ => post
       | Axios.Put _ => put
       end)
    (fun _ _ => found).

Definition down : Upstream :=
  replies (Rejected network_error) (Rejected network_error)
    (Rejected network_error) (Rejected network_error).

Definition ada : JSValue :=
  JObj [("id", JStr "101");
        ("properties", JObj [("email", JStr "ada@example.com");
                             ("firstname", JStr "Ada")])].

Definition renewal : JSValue :=
  JObj [("id", JStr "9001");
        ("properties", JObj [("dealname", JStr "Renewal")])].

Definition upsell : JSValue :=
  JObj [("id", JStr "9002");
        ("properties", JObj [("dealname", JStr "Upsell")])].

Definition association (dealId : string) : JSValue :=
  JObj [("toObjectId", JStr dealId);
        ("associationTypes", JArr [])].

(** An association record that carries no deal id. *)
Definition dangling : JSValue := JObj [("associationTypes", JArr [])].

(** The CRM's duplicate-contact error, with and without the existing id. *)
Definition duplicate_message : string :=
  "Contact already exists. Existing ID: 179556362935".

Definition duplicate : JSError :=
  http_error 409
    (JObj [("status", JStr "error");
           ("message", JStr duplicate_message);
           ("category", JStr "CONFLICT")]).

Definition duplicate_unnamed : JSError :=
  http_error 409
    (JObj [("status", JStr "error");
           ("message", JStr "Contact already exists");
           ("category", JStr "CONFLICT")]).


Definition invalid : JSError :=
  http_error 400
    (JObj [("status", JStr "error");
           ("message", JStr "Property values were not valid");
           ("category", JStr "VALIDATION_ERROR")]).

Definition healthy : Upstream :=
  replies (ok (JObj [("results", JArr [ada])])) (ok renewal) (ok (JObj []))
    (Fulfilled (mkSearchResponse (JArr [ada]))).

Definition empty : Upstream :=
  replies (ok (JObj [("results", JArr [])])) (ok (JObj [])) (ok (JObj []))
    (Fulfilled (mkSearchResponse (JArr []))).

(** Contact 101 has deals 9001 and 9002. *)
Definition two_deals : Upstream :=
  replies (ok (JObj [("results", JArr [association "9001"; association "9002"])]))
    (ok (JObj [("results", JArr [renewal; upsell])])) (ok (JObj []))
    (Rejected network_error).

Definition one_dangling : Upstream :=
  replies (ok (JObj [("results", JArr [dangling])]))
    (ok (JObj [("results", JArr [])])) (ok (JObj []))
    (Rejected network_error).

Definition one_deal_one_dangling : Upstream :=
  replies (ok (JObj [("results", JArr [dangling; association "9001"])]))
    (ok (JObj [("results", JArr [renewal])])) (ok (JObj []))
    (Rejected network_error).

Definition contact_exists : Upstream :=
  replies (Rejected network_error) (Rejected duplicate)
    (Rejected network_error) (Rejected network_error).

Definition contact_exists_unnamed : Upstream :=
  replies (Rejected network_error) (Rejected duplicate_unnamed)
    (Rejected network_error) (Rejected network_error).

Definition deal_rejected : Upstream :=
  replies (Rejected network_error) (Rejected invalid)
    (ok (JObj [])) (Rejected network_error).


Definition bare : Request := mkRequest (JObj []) [] [].

Definition new_contact : Request :=
  mkRequest (JObj [("properties", JObj [("email", JStr "ada@example.com")])]) [] [].

Definition new_contact_tagged : Request :=
  mkRequest (JObj [("properties", JObj [("email", JStr "ada@example.com")]);
                   ("source", JStr "signup-form")])
    [("debug", JStr "1")] [].

Definition by_email : Request :=
  mkRequest (JObj []) [("email", JStr "ada@example.com")] [].

Definition new_deal : Request :=
  mkRequest (JObj [("dealProperties", JObj [("dealname", JStr "Renewal")]);
                   ("contactId", JStr "101")]) [] [].


Definition deals_of_101 : Request :=
  mkRequest (JObj []) [] [("contactId", JStr "101")].

End Scenario.

(* ================================================================== *)
(** ** Sample requests and upstream behaviours off the usual paths *)

Module Edge.
Import Scenario.

Definition no_body : Request := mkRequest JUndefined [] [].

(** [?email=] *)
Definition empty_email : Request := mkRequest (JObj []) [("email", JStr EmptyString)] [].

(** A 409 whose reply has an empty body. *)
Definition bare_conflict : JSError := http_error 409 (JStr EmptyString).

(** A conflict whose message is a number. *)
Definition odd_conflict : JSError :=
  http_error 409 (JObj [("message", JNum 42); ("category", JStr "CONFLICT")]).

Definition only_post (post : Settled Axios.Response) : Upstream :=
  replies (Rejected network_error) post (Rejected network_error)
    (Rejected network_error).

Definition contact_created : Upstream := only_post (ok ada).
Definition contact_invalid : Upstream := only_post (Rejected invalid).
Definition contact_conflict_bare : Upstream := only_post (Rejected bare_conflict).
Definition contact_conflict_odd : Upstream := only_post (Rejected odd_conflict).


Definition deal_null : Upstream :=
  replies (Rejected network_error) (ok JNull) (ok (JObj []))
    (Rejected network_error).


(** Listings that are no array of records. *)
Definition listing_object : Upstream :=
  replies (ok (JObj [("results", JObj [("total", JNum 0)])]))
    (ok (JObj [])) (ok (JObj [])) (Rejected network_error).

Definition listing_null_record : Upstream :=
  replies (ok (JObj [("results", JArr [association "9001"; JNull])]))
    (ok (JObj [])) (ok (JObj [])) (Rejected network_error).

Definition search_null_record : Upstream :=
  replies (Rejected network_error) (Rejected network_error)
    (Rejected network_error) (Fulfilled (mkSearchResponse (JArr [JNull]))).

End Edge.

(* ================================================================== *)
(** ** A CRM that holds contacts, and further sample behaviours *)

Module Directory.
Import Scenario.

Definition grace : JSValue :=
  JObj [("id", JStr "102");
        ("properties", JObj [("email", JStr "grace@example.com");
                             ("firstname", JStr "Grace")])].

(** The first filter of the first filter group of a search request. *)
Definition first_filter (q : JSValue) : JSValue :=
  JS.first (JS.prop (JS.first (JS.prop q "filterGroups")) "filters").

(** A search answered from the records held: those whose property named
    by the filter equals the filter's value, at most [limit] of them; a
    request without such a filter is refused. *)
Definition search_in (records : list JSValue) (q : JSValue) : Settled SearchResponse :=
  let f := first_filter q in
  match JS.prop f "propertyName", JS.prop f "value", JS.prop q "limit" with
  | JStr name, JStr value, JNum limit =>
      if JS.strict_eq_str (JS.prop f "operator") "EQ" then
        Fulfilled (mkSearchResponse
          (JArr (firstn (Z.to_nat limit)
                   (filter (fun record =>
                              JS.strict_eq_str
                                (JS.prop (JS.prop record "properties") name) value)
                      records))))
      else Rejected invalid
  | _, _, _ => Rejected invalid
  end.

Definition crm (records : list JSValue) : Upstream :=
  mkUpstream (fun _ _ => Rejected network_error) (fun _ q => search_in records q).

Definition by_unknown_email : Request :=
  mkRequest (JObj []) [("email", JStr "nobody@example.com")] [].

(** The CRM is reached and answers 502 with a payload. *)
Definition bad_gateway : JSError :=
  http_error 502 (JObj [("status", JStr "error");
                        ("message", JStr "upstream unavailable")]).

Definition failing : Upstream :=
  replies (Rejected bad_gateway) (Rejected bad_gateway) (Rejected bad_gateway)
    (Rejected bad_gateway).

(** Listings fulfilled with a null body. *)
Definition null_listing : Upstream :=
  replies (ok JNull) (ok JNull) (ok (JObj [])) (Rejected network_error).

(** Contact 101 has two deals; the batch read answers with a null body,
    or with three records. *)
Definition batch_null : Upstream :=
  replies (ok (JObj [("results", JArr [association "9001"; association "9002"])]))
    (ok JNull) (ok (JObj [])) (Rejected network_error).

Definition extra : JSValue :=
  JObj [("id", JStr "9003");
        ("properties", JObj [("dealname", JStr "Extra")])].

Definition batch_generous : Upstream :=
  replies (ok (JObj [("results", JArr [association "9001"; association "9002"])]))
    (ok (JObj [("results", JArr [renewal; upsell; extra])])) (ok (JObj []))
    (Rejected network_error).



(** Requests whose ids or properties are no strings or objects. *)
Definition new_contact_text : Request :=
  mkRequest (JObj [("properties", JStr "x")]) [] [].


End Directory.

(* ================================================================== *)
(** ** The pattern matcher against the meaning of the pattern *)

Module ExistingIdFacts.
Import ExistingId.

Lemma digit_not_space c : is_digit c = true -> is_space c = false.
Proof.
  unfold is_digit, is_space. intros H.
  apply andb_true_iff in H as [H1 H2].
  apply Nat.leb_le in H1. apply Nat.leb_le in H2.
  repeat (apply orb_false_iff; split).
  - apply andb_false_iff. right. apply Nat.leb_gt. lia.
  - apply Nat.eqb_neq. lia.
  - apply Nat.eqb_neq. lia.
Qed.

Lemma strip_prefix_app p s : strip_prefix p (p ++ s) = Some s.
Proof.
  induction p as [|a p IH]; simpl; [reflexivity|].
  now rewrite Ascii.eqb_refl.
Qed.

Lemma strip_prefix_sound p : forall s r, strip_prefix p s = Some r -> s = p ++ r.
Proof.
  induction p as [|a p IH]; intros s r H; simpl in *.
  - now inversion H.
  - destruct s as [|b s]; [discriminate|].
    destruct (Ascii.eqb a b) eqn:E; [|discriminate].
    apply Ascii.eqb_eq in E. subst b. f_equal. now apply IH.
Qed.

Lemma skip_spaces_nonspace s : starts_with_digit s = true -> skip_spaces s = s.
Proof.
  destruct s as [|c s]; simpl; [discriminate|].
  intros H. now rewrite (digit_not_space _ H).
Qed.

Lemma skip_spaces_app ws s :
  all is_space ws = true -> skip_spaces (ws ++ s) = skip_spaces s.
Proof.
  induction ws as [|c ws IH]; simpl; [reflexivity|].
  intros H. apply andb_true_iff in H as [Hc Hws].
  rewrite Hc. now apply IH.
Qed.

Lemma skip_spaces_split s :
  exists ws, s = ws ++ skip_spaces s /\ all is_space ws = true.
Proof.
  induction s as [|c s [ws [E A]]]; simpl.
  - now exists EmptyString.
  - destruct (is_space c) eqn:Hc.
    + exists (String c ws). simpl. rewrite Hc, A. split; [now f_equal | reflexivity].
    + now exists EmptyString.
Qed.

Lemma take_digits_app d s :
  all is_digit d = true -> take_digits (d ++ s) = d ++ take_digits s.
Proof.
  induction d as [|c d IH]; simpl; [reflexivity|].
  intros H. apply andb_true_iff in H as [Hc Hd].
  rewrite Hc. f_equal. now apply IH.
Qed.

Lemma take_digits_split s :
  exists post, s = take_digits s ++ post
               /\ all is_digit (take_digits s) = true
               /\ starts_with_digit post = false.
Proof.
  induction s as [|c s [post [E [A N]]]]; simpl.
  - now exists EmptyString.
  - destruct (is_digit c) eqn:Hc.
    + exists post. simpl. rewrite Hc, A. repeat split; [now f_equal | assumption].
    + exists (String c s). simpl. now rewrite Hc.
Qed.

Lemma starts_with_digit_app d s :
  d <> EmptyString -> all is_digit d = true -> starts_with_digit (d ++ s) = true.
Proof.
  destruct d as [|c d]; [congruence|]. simpl. intros _ H.
  now apply andb_true_iff in H as [Hc _].
Qed.

(** At the position of an occurrence, the anchored matcher captures the
    digits of the occurrence, extended by the digits that follow them. *)
Lemma match_here_occurrence ws digits post :
  all is_space ws = true -> all is_digit digits = true -> digits <> EmptyString ->
  match_here ("Existing ID:" ++ ws ++ digits ++ post)
  = Some (digits ++ take_digits post).
Proof.
  intros Hws Hd Hne. unfold match_here.
  rewrite strip_prefix_app, skip_spaces_app by assumption.
  rewrite skip_spaces_nonspace by now apply starts_with_digit_app.
  rewrite take_digits_app by assumption.
  destruct digits; [congruence | reflexivity].
Qed.

Lemma match_here_sound s digits :
  match_here s = Some digits ->
  exists ws post, occurrence s EmptyString ws digits post
                  /\ starts_with_digit post = false.
Proof.
  unfold match_here. intros H.
  destruct (strip_prefix "Existing ID:" s) as [rest|] eqn:P; [|discriminate].
  apply strip_prefix_sound in P.
  destruct (skip_spaces_split rest) as [ws [Ews Aws]].
  destruct (take_digits_split (skip_spaces rest)) as [post [Ed [Ad Nd]]].
  assert (D : take_digits (skip_spaces rest) = digits /\ digits <> EmptyString).
  { destruct (take_digits (skip_spaces rest)); [discriminate|].
    inversion H. subst. split; [reflexivity | discriminate]. }
  destruct D as [D Hne]. rewrite D in Ed, Ad.
  exists ws, post. split; [|assumption].
  unfold occurrence. repeat split; try assumption.
  rewrite P, Ews at 1. simpl. now rewrite <- Ed.
Qed.

Lemma exec_eq s :
  exec s = match match_here s with
           | Some digits => Some digits
           | None => match s with
                     | String _ rest => exec rest
                     | EmptyString => None
                     end
           end.
Proof. destruct s; reflexivity. Qed.

Lemma exec_here s digits : match_here s = Some digits -> exec s = Some digits.
Proof. intros H. rewrite exec_eq. now rewrite H. Qed.

Lemma exec_skip pre : forall s,
  exec s <> None -> exec (pre ++ s) <> None.
Proof.
  induction pre as [|c pre IH]; intros s H; [assumption|].
  rewrite exec_eq.
  destruct (match_here (String c pre ++ s)); [discriminate | now apply IH].
Qed.

(** The matcher finds an id exactly when the message contains one. *)
Theorem exec_complete s : contains_id s -> exists digits, exec s = Some digits.
Proof.
  intros (pre & ws & digits & post & E & Hws & Hd & Hne). subst s.
  assert (H : exec (pre ++ "Existing ID:" ++ ws ++ digits ++ post) <> None).
  { apply exec_skip.
    now rewrite (exec_here _ _ (match_here_occurrence ws digits post Hws Hd Hne)). }
  destruct (exec _) as [d|]; [now exists d | congruence].
Qed.

(** What the matcher captures is a maximal run of digits of an occurrence. *)
Theorem exec_sound : forall s digits,
  exec s = Some digits ->
  exists pre ws post, occurrence s pre ws digits post
                      /\ starts_with_digit post = false.
Proof.
  induction s as [|c s IH]; intros digits H.
  - discriminate.
  - rewrite exec_eq in H.
    destruct (match_here (String c s)) as [d|] eqn:M.
    + inversion H. subst d.
      destruct (match_here_sound _ _ M) as (ws & post & O & N).
      now exists EmptyString, ws, post.
    + destruct (IH _ H) as (pre & ws & post & (E & Hws & Hd & Hne) & N).
      exists (String c pre), ws, post. split; [|assumption].
      unfold occurrence. repeat split; try assumption. simpl. now f_equal.
Qed.

(** The occurrence captured is the leftmost one. *)
Theorem exec_leftmost : forall s digits,
  exec s = Some digits ->
  exists pre ws post,
    occurrence s pre ws digits post
    /\ starts_with_digit post = false
    /\ (forall pre' ws' digits' post',
          occurrence s pre' ws' digits' post' ->
          (String.length pre <= String.length pre')%nat).
Proof.
  induction s as [|c s IH]; intros digits H.
  - discriminate.
  - rewrite exec_eq in H.
    destruct (match_here (String c s)) as [d|] eqn:M.
    + inversion H. subst d.
      destruct (match_here_sound _ _ M) as (ws & post & O & N).
      exists EmptyString, ws, post. repeat split; try assumption; try apply O.
      intros. simpl. lia.
    + destruct (IH _ H) as (pre & ws & post & (E & Hws & Hd & Hne) & N & L).
      exists (String c pre), ws, post. split; [|split; [assumption|]].
      * unfold occurrence. repeat split; try assumption. simpl. now f_equal.
      * intros pre' ws' digits' post' (E' & Hws' & Hd' & Hne').
        destruct pre' as [|c' pre'].
        -- rewrite E' in M.
           change (match_here ("Existing ID:" ++ ws' ++ digits' ++ post') = None) in M.
           rewrite (match_here_occurrence ws' digits' post' Hws' Hd' Hne') in M.
           discriminate.
        -- simpl in E'. inversion E' as [[Hc Hs]]. simpl.
           apply le_n_S. apply (L pre' ws' digits' post').
           unfold occurrence. now repeat split.
Qed.

Corollary exec_none s : exec s = None <-> ~ contains_id s.
Proof.
  split.
  - intros H C. destruct (exec_complete s C) as [d Hd]. congruence.
  - intros H. destruct (exec s) as [d|] eqn:E; [|reflexivity].
    exfalso. apply H. destruct (exec_sound _ _ E) as (pre & ws & post & O & _).
    now exists pre, ws, d, post.
Qed.

Example exec_documented_message :
  exec "Contact already exists. Existing ID: 179556362935" = Some "179556362935".
Proof. reflexivity. Qed.

End ExistingIdFacts.

(* ================================================================== *)
(** ** Numbers as template literals print them *)

Example number_to_string_plain :
  JS.to_string (JNum 9001) = "9001"
  /\ JS.to_string (JNum (-7)) = "-7"
  /\ JS.to_string (JNum (2 ^ 53 - 1)) = "9007199254740991".
Proof. repeat split. Qed.

(** Past 2^53 a literal stands for the nearest double, printed with the
    fewest digits that name it; from 1e21 on in exponent form. *)
Example number_to_string_large :
  JS.to_string (JNum (2 ^ 53 + 1)) = "9007199254740992"
  /\ JS.to_string (JNum (2 ^ 60)) = "1152921504606847000"
  /\ JS.to_string (JNum 123456789012345678901) = "123456789012345680000"
  /\ JS.to_string (JNum (10 ^ 21)) = "1e+21"
  /\ JS.to_string (JNum (2 ^ 70)) = "1.1805916207174113e+21"
  /\ JS.to_string (JNum (- 10 ^ 23)) = "-1e+23".
Proof. repeat split; vm_compute; reflexivity. Qed.

Example association_url_numbered :
  association_url (JStr "9001") (JNum (10 ^ 21))
  = "/crm/v3/objects/deals/9001/associations/contacts/1e+21/3".
Proof. vm_compute. reflexivity. Qed.

(* ================================================================== *)
(** ** Reading properties *)

Lemma read_present v k : JS.nullish v = false -> read v k = Fulfilled (JS.prop v k).
Proof. unfold read. now intros ->. Qed.

Lemma prop_nullish v k : JS.nullish v = true -> JS.prop v k = JUndefined.
Proof. destruct v; simpl; congruence. Qed.

Lemma present_of_truthy_prop v k :
  JS.truthy (JS.prop v k) = true -> JS.nullish v = false.
Proof. destruct v; simpl; congruence. Qed.

Lemma present_of_array_prop v k l : JS.prop v k = JArr l -> JS.nullish v = false.
Proof. destruct v; simpl; congruence. Qed.

Lemma or_truthy a b : JS.truthy a = true -> JS.or a b = a.
Proof. unfold JS.or. now intros ->. Qed.

Lemma or_falsy a b : JS.truthy a = false -> JS.or a b = b.
Proof. unfold JS.or. now intros ->. Qed.

Lemma or_truthy_default a b : JS.truthy b = true -> JS.truthy (JS.or a b) = true.
Proof. unfold JS.or. intros H. now destruct (JS.truthy a) eqn:E. Qed.

(** [map] over records: no callback throws. *)
Lemma map_settled_read k : forall l,
  Forall (fun a => JS.nullish a = false) l ->
  map_settled (fun a => read a k) l = Fulfilled (map (fun a => JS.prop a k) l).
Proof.
  induction 1 as [|a l Ha _ IH]; simpl; [reflexivity|].
  now rewrite (read_present _ _ Ha), IH.
Qed.

Lemma filter_all_truthy (l : list JSValue) :
  Forall (fun v => JS.truthy v = true) l -> filter JS.truthy l = l.
Proof.
  induction 1 as [|v l Hv _ IH]; simpl; [reflexivity|]. now rewrite Hv, IH.
Qed.

Lemma filter_all_falsy (l : list JSValue) :
  Forall (fun v => JS.truthy v = false) l -> filter JS.truthy l = [].
Proof.
  induction 1 as [|v l Hv _ IH]; simpl; [reflexivity|]. now rewrite Hv.
Qed.

(** Unfolding a served handler down to its first upstream call. *)
Ltac serve_handler h := unfold calls, sent, serve, h; cbn.

(** Rewriting with how an upstream call settled, then running on. *)
Ltac settle H := rewrite H; cbn.

(* ================================================================== *)
(** ** GET /api/contacts *)

Section GetApiContacts.

Variable up : Upstream.
Variable req : Request.

Local Abbreviation listing := (list_objects "/crm/v3/objects/contacts" contact_properties).

(** C7, as the code has it.  Listing contacts issues exactly one upstream
    call, the contact listing with page size 50 and the seven properties
    firstname, lastname, email, phone, address, jobtitle, company, whatever
    the outcome (no retry).  When the call succeeds with a body that is
    not null, the response is 200 with the upstream result array under
    [results], or the empty array when the body has none; a reply whose
    body is null is answered with 500.  When the call fails the response
    is 500 with the upstream error payload under [details], or the error
    message when the failure has no payload. *)
Theorem get_api_contacts_contract :
  let request :=
    Axios.Get "/crm/v3/objects/contacts"
      (JObj [("limit", JNum 50);
             ("properties",
              JStr "firstname,lastname,email,phone,address,jobtitle,company")]) in
  calls up get_api_contacts req = [CAxios request]
  /\ (forall r,
        axios up [] request = Fulfilled r ->
        JS.nullish (Axios.data r) = false ->
        sent up get_api_contacts req
        = Fulfilled (mkResponse 200
            (JObj [("results",
                    if JS.truthy (JS.prop (Axios.data r) "results")
                    then JS.prop (Axios.data r) "results" else JArr [])])))
  /\ (forall r,
        axios up [] request = Fulfilled r ->
        JS.nullish (Axios.data r) = true ->
        sent up get_api_contacts req
        = Fulfilled (mkResponse 500
            (JObj [("error", JStr "Failed to fetch contacts");
                   ("details",
                    JStr ("Cannot read properties of "
                            ++ JS.to_string (Axios.data r)
                            ++ " (reading 'results')"))])))
  /\ (forall e reply,
        axios up [] request = Rejected e ->
        JS.response e = Some reply ->
        sent up get_api_contacts req
        = Fulfilled (mkResponse 500
            (JObj [("error", JStr "Failed to fetch contacts");
                   ("details",
                    if JS.truthy (Axios.data reply)
                    then Axios.data reply else JStr (JS.message e))])))
  /\ (forall e,
        axios up [] request = Rejected e ->
        JS.response e = None ->
        sent up get_api_contacts req
        = Fulfilled (mkResponse 500
            (JObj [("error", JStr "Failed to fetch contacts");
                   ("details", JStr (JS.message e))]))).
Proof.
  intros request.
  assert (Hreq : request = listing) by reflexivity.
  rewrite Hreq. clear Hreq request.
  split; [|split; [|split; [|split]]].
  - serve_handler get_api_contacts.
    destruct (axios up [] listing) as [r|e]; cbn; [|reflexivity].
    destruct (read (Axios.data r) "results"); reflexivity.
  - intros r Hr Hd. serve_handler get_api_contacts. settle Hr.
    now rewrite (read_present _ _ Hd).
  - intros r Hr Hd. serve_handler get_api_contacts. settle Hr.
    unfold read. now rewrite Hd.
  - intros e reply He Hrep. serve_handler get_api_contacts. settle He.
    unfold upstream_details, response_data, JS.or. now rewrite Hrep.
  - intros e He Hrep. serve_handler get_api_contacts. settle He.
    unfold upstream_details, response_data, JS.or. now rewrite Hrep.
Qed.

End GetApiContacts.

(* ================================================================== *)
(** ** GET /api/contacts/:contactId/deals *)

Section GetApiContactsDeals.

Variable up : Upstream.
Variable req : Request.

Local Abbreviation contactId := (JS.lookup "contactId" (params req)).
Local Abbreviation listing := (list_associations contactId).
Local Abbreviation toObjectId := (fun assoc => JS.prop assoc "toObjectId").

(** The handler after a listing that returned the records [assocs]. *)
Lemma deals_after_listing r assocs :
  axios up [] listing = Fulfilled r ->
  JS.prop (Axios.data r) "results" = JArr assocs ->
  Forall (fun a => JS.nullish a = false) assocs ->
  serve up get_api_contacts_deals req
  = let dealIds := filter JS.truthy (map toObjectId assocs) in
    match dealIds with
    | [] => (Fulfilled (mkResponse 200 (JObj [("results", JArr [])])),
             [CAxios listing])
    | _ :: _ =>
        run up [CAxios listing; CAxios (batch_read dealIds)]
          (match axios up [CAxios listing] (batch_read dealIds) with
           | Fulfilled b =>
               match read (Axios.data b) "results" with
               | Fulfilled results =>
                   res_json (JObj [("results", JS.or results (JArr []))])
               | Rejected e =>
                   res_status_json 500
                     (error_body "Failed to fetch deals for contact"
                        (upstream_details e))
               end
           | Rejected e =>
               res_status_json 500
                 (error_body "Failed to fetch deals for contact"
                    (upstream_details e))
           end)
    end.
Proof.
  intros Hr Ha Hrec. serve_handler get_api_contacts_deals. settle Hr.
  rewrite (read_present _ _ (present_of_array_prop _ _ _ Ha)). cbn.
  rewrite Ha. cbn. rewrite (map_settled_read _ _ Hrec). cbn.
  destruct (filter JS.truthy (map toObjectId assocs)) as [|d ds]; cbn;
    [reflexivity|].
  destruct (axios up [CAxios listing] (batch_read (d :: ds))) as [b|e]; cbn;
    [|reflexivity].
  destruct (read (Axios.data b) "results"); reflexivity.
Qed.

Lemma run_batch_calls (m : Settled Axios.Response) log :
  snd (run up log
         (match m with
          | Fulfilled b =>
              match read (Axios.data b) "results" with
              | Fulfilled results =>
                  res_json (JObj [("results", JS.or results (JArr []))])
              | Rejected e =>
                  res_status_json 500
                    (error_body "Failed to fetch deals for contact"
                       (upstream_details e))
              end
          | Rejected e =>
              res_status_json 500
                (error_body "Failed to fetch deals for contact"
                   (upstream_details e))
          end)) = log.
Proof.
  destruct m as [b|e]; [|reflexivity].
  destruct (read (Axios.data b) "results"); reflexivity.
Qed.

(** C5. When the association listing returns no association (an empty
    [results] array, or a body without [results]), the response is 200
    with [{ results: [] }] and the listing is the only upstream call: no
    batch read is issued. *)
Theorem no_association_skips_batch_read r :
  axios up [] listing = Fulfilled r ->
  (JS.prop (Axios.data r) "results" = JArr []
   \/ (JS.nullish (Axios.data r) = false
       /\ JS.prop (Axios.data r) "results" = JUndefined)) ->
  serve up get_api_contacts_deals req
  = (Fulfilled (mkResponse 200 (JObj [("results", JArr [])])), [CAxios listing]).
Proof.
  intros Hr [He | [Hd Hu]].
  - now rewrite (deals_after_listing r [] Hr He (Forall_nil _)).
  - serve_handler get_api_contacts_deals. settle Hr.
    rewrite (read_present _ _ Hd). cbn. now rewrite Hu.
Qed.

(** C9. Association records without a truthy [toObjectId] are dropped
    before the batch read: the batch read, when there is one, asks for the
    truthy [toObjectId]s only, in listing order.  When every record of a
    non-empty listing lacks one, the response is 200 with [{ results: [] }]
    and no batch read is issued. *)
Theorem falsy_toObjectId_dropped r assocs :
  axios up [] listing = Fulfilled r ->
  JS.prop (Axios.data r) "results" = JArr assocs ->
  Forall (fun a => JS.nullish a = false) assocs ->
  (filter JS.truthy (map toObjectId assocs) <> [] ->
   calls up get_api_contacts_deals req
   = [CAxios listing;
      CAxios (batch_read (filter JS.truthy (map toObjectId assocs)))])
  /\ (assocs <> [] ->
      Forall (fun a => JS.truthy (toObjectId a) = false) assocs ->
      serve up get_api_contacts_deals req
      = (Fulfilled (mkResponse 200 (JObj [("results", JArr [])])),
         [CAxios listing])).
Proof.
  intros Hr Ha Hrec. split.
  - intros Hne. unfold calls. rewrite (deals_after_listing r assocs Hr Ha Hrec).
    cbv zeta. destruct (filter JS.truthy (map toObjectId assocs)) as [|d ds];
      [congruence|].
    apply run_batch_calls.
  - intros _ Hall. rewrite (deals_after_listing r assocs Hr Ha Hrec).
    cbv zeta. rewrite filter_all_falsy; [reflexivity|].
    now apply Forall_map.
Qed.

(** C4, as the code has it.  When the association listing returns N > 0
    associations, each carrying a deal id (a truthy [toObjectId]), the
    handler issues after the listing exactly one more call, a batch read
    whose inputs are the N deal ids in listing order.  When the batch read
    succeeds with a body that is not null, the response is 200 with the
    records it returned under [results], the empty array when its body
    has none: the array is passed on as it came, however many records it
    holds. *)
Theorem associated_deals_batch_read r assocs :
  let listing_request :=
    Axios.Get ("/crm/v4/objects/contacts/" ++ JS.to_string contactId
                 ++ "/associations/deals")
      (JObj [("limit", JNum 100)]) in
  axios up [] listing_request = Fulfilled r ->
  JS.prop (Axios.data r) "results" = JArr assocs ->
  assocs <> [] ->
  Forall (fun a => JS.truthy (JS.prop a "toObjectId") = true) assocs ->
  let batch :=
    Axios.Post "/crm/v3/objects/deals/batch/read"
      (JObj [("properties",
              JArr [JStr "dealname"; JStr "amount"; JStr "dealstage";
                    JStr "closedate"; JStr "pipeline"]);
             ("inputs",
              JArr (map (fun a => JObj [("id", JS.prop a "toObjectId")]) assocs))]) in
  calls up get_api_contacts_deals req = [CAxios listing_request; CAxios batch]
  /\ (forall b,
        axios up [CAxios listing_request] batch = Fulfilled b ->
        JS.nullish (Axios.data b) = false ->
        sent up get_api_contacts_deals req
        = Fulfilled (mkResponse 200
            (JObj [("results",
                    if JS.truthy (JS.prop (Axios.data b) "results")
                    then JS.prop (Axios.data b) "results" else JArr [])])))
  /\ (forall b deals,
        axios up [CAxios listing_request] batch = Fulfilled b ->
        JS.prop (Axios.data b) "results" = JArr deals ->
        sent up get_api_contacts_deals req
        = Fulfilled (mkResponse 200 (JObj [("results", JArr deals)]))).
Proof.
  intros listing_request Hr Ha Hne Hall batch.
  assert (Hl : listing_request = listing) by reflexivity.
  rewrite Hl in *. clear Hl listing_request.
  assert (Hb : batch = batch_read (map toObjectId assocs)).
  { unfold batch, batch_read, batch_inputs. now rewrite map_map. }
  rewrite Hb. clear Hb batch.
  assert (Hrec : Forall (fun a => JS.nullish a = false) assocs).
  { eapply Forall_impl; [|exact Hall]. intros a. apply present_of_truthy_prop. }
  assert (Hids : filter JS.truthy (map toObjectId assocs) = map toObjectId assocs).
  { apply filter_all_truthy. now apply Forall_map. }
  pose proof (deals_after_listing r assocs Hr Ha Hrec) as Hserve.
  cbv zeta in Hserve. rewrite Hids in Hserve.
  assert (Hcons : map toObjectId assocs <> []).
  { destruct assocs; [congruence | discriminate]. }
  split; [|split].
  - unfold calls. rewrite Hserve.
    destruct (map toObjectId assocs); [congruence|]. apply run_batch_calls.
  - intros b Hb Hd. unfold sent. rewrite Hserve.
    destruct (map toObjectId assocs); [congruence|]. rewrite Hb.
    now rewrite (read_present _ _ Hd).
  - intros b deals Hb Hd. unfold sent. rewrite Hserve.
    destruct (map toObjectId assocs); [congruence|]. rewrite Hb.
    rewrite (read_present _ _ (present_of_array_prop _ _ _ Hd)). cbn.
    now rewrite Hd.
Qed.

End GetApiContactsDeals.

(* ================================================================== *)
(** ** POST /api/deals *)

Section PostApiDeals.

Variable up : Upstream.
Variable req : Request.

Local Abbreviation dealProperties := (JS.prop (body req) "dealProperties").
Local Abbreviation contactId := (JS.prop (body req) "contactId").
Local Abbreviation create := (create_deal dealProperties).

Lemma deals_validated :
  JS.truthy dealProperties = true -> JS.truthy contactId = true ->
  serve up post_api_deals req
  = run up []
      (try
         (dealResponse <- hubspotAxios create;;
          dealId <- member (Axios.data dealResponse) "id";;
          _ <- hubspotAxios (associate dealId contactId);;
          res_json (Axios.data dealResponse))
       catch (fun error =>
         res_status_json 500
           (error_body "Failed to create deal" (upstream_details error)))).
Proof.
  intros Hd Hc. unfold serve, post_api_deals, destructure.
  rewrite (present_of_truthy_prop _ _ Hd). cbn [bind ret]. now rewrite Hd, Hc.
Qed.




End PostApiDeals.

(* ================================================================== *)
(** ** POST /api/contacts *)

Section PostApiContacts.

Variable up : Upstream.

Local Abbreviation properties_of req := (JS.prop (body req) "properties").
Local Abbreviation create req :=
  (create_contact (JObj [("properties", properties_of req)])).

Lemma exec_nonempty s digits :
  ExistingId.exec s = Some digits -> JS.truthy (JStr digits) = true.
Proof.
  intros H. destruct (ExistingIdFacts.exec_sound _ _ H) as (pre & ws & post & O & _).
  destruct O as (_ & _ & _ & Hne). destruct digits; [congruence | reflexivity].
Qed.

(** The conflict branch, for an upstream message that is a string (or is
    missing, which the handler reads as the empty string). *)
Lemma conflict_outcome req e msg :
  JS.nullish (body req) = false ->
  axios up [] (create req) = Rejected e ->
  is_conflict e = true ->
  JS.or (JS.opt_prop (response_data e) "message") (JStr EmptyString) = JStr msg ->
  serve up post_api_contacts req
  = (match ExistingId.exec msg with
     | Some digits =>
         Fulfilled (mkResponse 200
           (JObj [("id", JStr digits);
                  ("properties", JS.or (properties_of req) (JObj []));
                  ("existing", JBool true)]))
     | None =>
         Fulfilled (mkResponse 409
           (JObj [("error", JStr "Contact already exists");
                  ("details", JS.or (response_data e) (JStr msg))]))
     end,
     [CAxios (create req)]).
Proof.
  intros Hb He Hc Hm. unfold serve, post_api_contacts, member.
  rewrite !(read_present _ _ Hb). cbn. settle He.
  unfold is_conflict in Hc. rewrite Hc, Hm. cbn.
  destruct (ExistingId.exec msg) as [digits|] eqn:E; cbn.
  - pose proof (exec_nonempty _ _ E) as T. cbn in T. rewrite T. cbn.
    now rewrite T.
  - reflexivity.
Qed.

Lemma is_conflict_iff e :
  is_conflict e = true
  <-> (response_status e = JNum 409
       \/ JS.opt_prop (response_data e) "category" = JStr "CONFLICT").
Proof.
  unfold is_conflict. rewrite orb_true_iff. split; intros [H | H].
  - left. destruct (response_status e); simpl in H; try discriminate.
    apply Z.eqb_eq in H. now subst.
  - right. destruct (JS.opt_prop (response_data e) "category"); simpl in H;
      try discriminate.
    apply String.eqb_eq in H. now subst.
  - left. now rewrite H.
  - right. now rewrite H.
Qed.

(** The conflict test and the message of the handler, read off the reply
    that the failed call got. *)
Lemma conflict_of_reply e reply msg :
  JS.response e = Some reply ->
  Axios.status reply = 409%Z
  \/ JS.prop (Axios.data reply) "category" = JStr "CONFLICT" ->
  (if JS.truthy (JS.prop (Axios.data reply) "message")
   then JS.prop (Axios.data reply) "message" else JStr EmptyString) = JStr msg ->
  response_data e = Axios.data reply
  /\ is_conflict e = true
  /\ JS.or (JS.opt_prop (response_data e) "message") (JStr EmptyString) = JStr msg.
Proof.
  intros Hrep Hc Hm.
  assert (Hdata : response_data e = Axios.data reply).
  { unfold response_data. now rewrite Hrep. }
  assert (Hopt : forall k, JS.opt_prop (Axios.data reply) k = JS.prop (Axios.data reply) k).
  { intros k. unfold JS.opt_prop.
    destruct (JS.nullish (Axios.data reply)) eqn:N; [|reflexivity].
    now rewrite (prop_nullish _ _ N). }
  split; [exact Hdata|]. split.
  - unfold is_conflict, response_status. rewrite Hrep, Hdata, Hopt.
    destruct Hc as [-> | ->]; [reflexivity | apply orb_true_r].
  - rewrite Hdata, Hopt. exact Hm.
Qed.

(** C1, as the code has it.  The create call, issued for a request with a
    body, fails with a reply of HTTP status 409 or of error category
    CONFLICT, and the reply's message is a string, or is missing (read as
    the empty string).  If the message contains the label, optional white
    space and digits, the response is 200 with the digits parsed (a
    maximal run of digits of the leftmost such occurrence) as [id],
    [existing: true], and as [properties] the request's properties, or the
    empty object when the request has none; if the message contains no
    such id, the response is 409 with the reply body (the message when
    the body is empty) under [details]. *)
Theorem conflict_resolution req e reply msg :
  JS.nullish (body req) = false ->
  axios up []
    (Axios.Post "/crm/v3/objects/contacts"
       (JObj [("properties", JS.prop (body req) "properties")]))
  = Rejected e ->
  JS.response e = Some reply ->
  Axios.status reply = 409%Z
  \/ JS.prop (Axios.data reply) "category" = JStr "CONFLICT" ->
  (if JS.truthy (JS.prop (Axios.data reply) "message")
   then JS.prop (Axios.data reply) "message" else JStr EmptyString) = JStr msg ->
  (ExistingId.contains_id msg ->
   exists pre ws digits post,
     ExistingId.occurrence msg pre ws digits post
     /\ ExistingId.starts_with_digit post = false
     /\ (forall pre' ws' digits' post',
           ExistingId.occurrence msg pre' ws' digits' post' ->
           (String.length pre <= String.length pre')%nat)
     /\ sent up post_api_contacts req
        = Fulfilled (mkResponse 200
            (JObj [("id", JStr digits);
                   ("properties",
                    if JS.truthy (JS.prop (body req) "properties")
                    then JS.prop (body req) "properties" else JObj []);
                   ("existing", JBool true)])))
  /\ (~ ExistingId.contains_id msg ->
      sent up post_api_contacts req
      = Fulfilled (mkResponse 409
          (JObj [("error", JStr "Contact already exists");
                 ("details",
                  if JS.truthy (Axios.data reply)
                  then Axios.data reply else JStr msg)]))).
Proof.
  intros Hb He Hrep Hc Hm.
  destruct (conflict_of_reply e reply msg Hrep Hc Hm) as (Hdata & Hconf & Hmsg).
  pose proof (conflict_outcome req e msg Hb He Hconf Hmsg) as Hs.
  unfold sent. rewrite Hs, Hdata. split.
  - intros Hin. destruct (ExistingIdFacts.exec_complete _ Hin) as [digits E].
    destruct (ExistingIdFacts.exec_leftmost _ _ E) as (pre & ws & post & O & N & L).
    exists pre, ws, digits, post. now rewrite E.
  - intros Hout. apply ExistingIdFacts.exec_none in Hout. now rewrite Hout.
Qed.

(** C8, as the code has it.  In the synthesized conflict response, a
    request without a [properties] field gets [properties: {}]; the field
    is always there (never undefined); it is an object whenever the
    request's properties is an object, missing or otherwise falsy, and a
    truthy [properties] of any type is echoed as it came. *)
Theorem conflict_properties_default req e reply msg :
  JS.nullish (body req) = false ->
  axios up []
    (Axios.Post "/crm/v3/objects/contacts"
       (JObj [("properties", JS.prop (body req) "properties")]))
  = Rejected e ->
  JS.response e = Some reply ->
  Axios.status reply = 409%Z
  \/ JS.prop (Axios.data reply) "category" = JStr "CONFLICT" ->
  JS.prop (Axios.data reply) "message" = JStr msg ->
  ExistingId.contains_id msg ->
  exists digits properties,
    sent up post_api_contacts req
    = Fulfilled (mkResponse 200
        (JObj [("id", JStr digits);
               ("properties", properties);
               ("existing", JBool true)]))
    /\ (JS.prop (body req) "properties" = JUndefined -> properties = JObj [])
    /\ JS.truthy properties = true
    /\ (is_object (JS.prop (body req) "properties") = true
        \/ JS.truthy (JS.prop (body req) "properties") = false ->
        is_object properties = true)
    /\ (JS.truthy (JS.prop (body req) "properties") = true ->
        properties = JS.prop (body req) "properties").
Proof.
  intros Hb He Hrep Hc Hm Hin.
  assert (Hm' : (if JS.truthy (JS.prop (Axios.data reply) "message")
                 then JS.prop (Axios.data reply) "message" else JStr EmptyString)
                = JStr msg).
  { rewrite Hm. destruct msg as [|c msg]; [|reflexivity].
    exfalso. destruct Hin as (pre & ws & digits & post & E & _).
    destruct pre; discriminate E. }
  destruct (conflict_of_reply e reply msg Hrep Hc Hm') as (Hdata & Hconf & Hmsg).
  destruct (ExistingIdFacts.exec_complete _ Hin) as [digits E].
  exists digits, (JS.or (properties_of req) (JObj [])).
  unfold sent. rewrite (conflict_outcome req e msg Hb He Hconf Hmsg), E.
  split; [reflexivity|]. split; [|split; [|split]].
  - now intros ->.
  - now apply or_truthy_default.
  - intros [H | H].
    + destruct (properties_of req); try discriminate. reflexivity.
    + now rewrite (or_falsy _ _ H).
  - intros H. now apply or_truthy.
Qed.

(** C10. The upstream create call carries the body's [properties] and
    nothing else of the request; two requests whose bodies have the same
    [properties] are served alike, in the upstream calls issued and in the
    response sent, whatever else the bodies, queries or path parameters
    hold. *)
Theorem only_properties_forwarded req1 req2 :
  JS.nullish (body req1) = false ->
  JS.nullish (body req2) = false ->
  properties_of req1 = properties_of req2 ->
  calls up post_api_contacts req1
  = [CAxios (Axios.Post "/crm/v3/objects/contacts"
               (JObj [("properties", properties_of req1)]))]
  /\ serve up post_api_contacts req1 = serve up post_api_contacts req2.
Proof.
  intros H1 H2 Heq. split.
  - unfold calls, serve, post_api_contacts, member.
    rewrite !(read_present _ _ H1). cbn.
    destruct (axios up [] (create req1)) as [r|e]; cbn; [reflexivity|].
    destruct (JS.strict_eq_num (response_status e) 409
              || JS.strict_eq_str (JS.opt_prop (response_data e) "category") "CONFLICT");
      [|reflexivity].
    destruct (JS.or (JS.opt_prop (response_data e) "message") (JStr EmptyString));
      cbn; try reflexivity.
    destruct (ExistingId.exec s) as [digits|]; cbn; [|reflexivity].
    destruct (negb (digits =? EmptyString)); cbn; [|reflexivity].
    destruct (negb (digits =? EmptyString)); reflexivity.
  - unfold serve, post_api_contacts, member.
    rewrite !(read_present _ _ H1), !(read_present _ _ H2). now rewrite Heq.
Qed.

End PostApiContacts.

(* ================================================================== *)
(** ** GET /api/contacts/by-email *)

Section GetApiContactsByEmail.

Variable up : Upstream.
Variable req : Request.

Local Abbreviation email := (JS.lookup "email" (query req)).
Local Abbreviation searchRequest := (search_by_email email).

Lemma by_email_calls :
  JS.truthy email = true ->
  calls up get_api_contacts_by_email req = [CSearch searchRequest].
Proof.
  intros He. serve_handler get_api_contacts_by_email. rewrite He. cbn.
  destruct (search up [] searchRequest) as [r|e]; cbn; [|reflexivity].
  destruct (JS.strict_eq_num _ 0); cbn; [reflexivity|].
  destruct (read (JS.first _) "id"); cbn; [|reflexivity].
  destruct (read (JS.first _) "properties"); reflexivity.
Qed.

(** C6.  Without an [email] query parameter the response is 400 and no
    upstream call is made.  With an email, the handler issues one search:
    the contacts whose [email] property equals the email given, their
    firstname, lastname and email, one result at most.  When the search
    returns no record the response is 200 with [{ found: false }]; when
    it returns records the response is 200 with [found: true] and the id
    and properties of the first. *)
Theorem find_contact_by_email :
  let search_request :=
    JObj [("filterGroups",
           JArr [JObj [("filters",
                        JArr [JObj [("propertyName", JStr "email");
                                    ("operator", JStr "EQ");
                                    ("value", email)]])]]);
          ("properties", JArr [JStr "firstname"; JStr "lastname"; JStr "email"]);
          ("limit", JNum 1)] in
  (email = JUndefined ->
   serve up get_api_contacts_by_email req
   = (Fulfilled (mkResponse 400
        (JObj [("error", JStr "Missing email parameter");
               ("details", JStr "Please provide ?email=example@domain.com")])),
      []))
  /\ (JS.truthy email = true ->
      calls up get_api_contacts_by_email req = [CSearch search_request]
      /\ (forall r,
            search up [] search_request = Fulfilled r ->
            results r = JArr [] \/ JS.truthy (results r) = false ->
            sent up get_api_contacts_by_email req
            = Fulfilled (mkResponse 200 (JObj [("found", JBool false)])))
      /\ (forall r contact others,
            search up [] search_request = Fulfilled r ->
            results r = JArr (contact :: others) ->
            JS.nullish contact = false ->
            sent up get_api_contacts_by_email req
            = Fulfilled (mkResponse 200
                (JObj [("found", JBool true);
                       ("contact",
                        JObj [("id", JS.prop contact "id");
                              ("properties", JS.prop contact "properties")])])))).
Proof.
  intros search_request.
  assert (Hq : search_request = searchRequest) by reflexivity.
  rewrite Hq. clear Hq search_request.
  split.
  - intros He. unfold serve, get_api_contacts_by_email. now rewrite He.
  - intros He. split; [now apply by_email_calls|]. split.
    + intros r Hr Hnone. serve_handler get_api_contacts_by_email.
      rewrite He. cbn. settle Hr.
      destruct Hnone as [-> | Hf]; [reflexivity|]. now rewrite (or_falsy _ _ Hf).
    + intros r contact others Hr Hres Hc.
      serve_handler get_api_contacts_by_email. rewrite He. cbn. settle Hr.
      rewrite Hres. cbn. rewrite !(read_present _ _ Hc). cbn.
      reflexivity.
Qed.

End GetApiContactsByEmail.

(* ================================================================== *)
(** ** The contracts on the sample requests *)

Import Scenario.

(** Listing contacts against a CRM holding one contact, against one whose
    reply has no [results], against one that answers 502 with a payload,
    and against one that is unreachable. *)
Lemma get_api_contacts_contract_witness :
  sent healthy get_api_contacts bare
  = Fulfilled (mkResponse 200 (JObj [("results", JArr [ada])]))
  /\ sent (replies (ok (JObj [])) (ok (JObj [])) (ok (JObj []))
             (Rejected network_error)) get_api_contacts bare
     = Fulfilled (mkResponse 200 (JObj [("results", JArr [])]))
  /\ sent Directory.failing get_api_contacts bare
     = Fulfilled (mkResponse 500
         (JObj [("error", JStr "Failed to fetch contacts");
                ("details",
                 JObj [("status", JStr "error");
                       ("message", JStr "upstream unavailable")])]))
  /\ sent down get_api_contacts bare
     = Fulfilled (mkResponse 500
         (JObj [("error", JStr "Failed to fetch contacts");
                ("details", JStr "connect ECONNREFUSED 127.0.0.1:443")])).
Proof.
  split; [|split; [|split]].
  - destruct (get_api_contacts_contract healthy bare) as (_ & H & _).
    exact (H (Axios.mkResponse (JObj [("results", JArr [ada])]) 200) eq_refl eq_refl).
  - destruct (get_api_contacts_contract
                (replies (ok (JObj [])) (ok (JObj [])) (ok (JObj []))
                   (Rejected network_error)) bare) as (_ & H & _).
    exact (H (Axios.mkResponse (JObj []) 200) eq_refl eq_refl).
  - destruct (get_api_contacts_contract Directory.failing bare)
      as (_ & _ & _ & H & _).
    exact (H Directory.bad_gateway
             (Axios.mkResponse
                (JObj [("status", JStr "error");
                       ("message", JStr "upstream unavailable")]) 502)
             eq_refl eq_refl).
  - destruct (get_api_contacts_contract down bare) as (_ & _ & _ & _ & H).
    exact (H network_error eq_refl eq_refl).
Defined.

(** C7 as stated fails on a listing that succeeds with a null body: the
    upstream call is fulfilled, and the response is a 500, not
    [{ results }]. *)
Lemma null_listing_answered_500 :
  axios Directory.null_listing []
    (Axios.Get "/crm/v3/objects/contacts"
       (JObj [("limit", JNum 50);
              ("properties",
               JStr "firstname,lastname,email,phone,address,jobtitle,company")]))
  = Fulfilled (Axios.mkResponse JNull 200)
  /\ sent Directory.null_listing get_api_contacts bare
     = Fulfilled (mkResponse 500
         (JObj [("error", JStr "Failed to fetch contacts");
                ("details",
                 JStr "Cannot read properties of null (reading 'results')")])).
Proof. split; reflexivity. Qed.

(** Contact 101 has no deal. *)
Lemma no_association_skips_batch_read_witness :
  serve empty get_api_contacts_deals deals_of_101
  = (Fulfilled (mkResponse 200 (JObj [("results", JArr [])])),
     [CAxios (list_associations (JStr "101"))]).
Proof.
  apply (no_association_skips_batch_read empty deals_of_101
           (Axios.mkResponse (JObj [("results", JArr [])]) 200)).
  - reflexivity.
  - left. reflexivity.
Defined.

(** A listing of one record without deal id and one with: only the latter
    is read; a listing of one record without deal id: nothing is read. *)
Lemma falsy_toObjectId_dropped_witness :
  calls one_deal_one_dangling get_api_contacts_deals deals_of_101
  = [CAxios (list_associations (JStr "101"));
     CAxios (batch_read [JStr "9001"])]
  /\ serve one_dangling get_api_contacts_deals deals_of_101
     = (Fulfilled (mkResponse 200 (JObj [("results", JArr [])])),
        [CAxios (list_associations (JStr "101"))]).
Proof.
  split.
  - apply (falsy_toObjectId_dropped one_deal_one_dangling deals_of_101
             (Axios.mkResponse
                (JObj [("results", JArr [dangling; association "9001"])]) 200)
             [dangling; association "9001"]).
    + reflexivity.
    + reflexivity.
    + repeat constructor.
    + discriminate.
  - apply (falsy_toObjectId_dropped one_dangling deals_of_101
             (Axios.mkResponse (JObj [("results", JArr [dangling])]) 200)
             [dangling]).
    + reflexivity.
    + reflexivity.
    + repeat constructor.
    + discriminate.
    + repeat constructor.
Defined.

(** C4 as stated fails in three places.  A listing of one association
    that carries no deal id has N = 1 > 0 and yet the listing is the only
    upstream call, no batch read is issued.  A batch read that succeeds
    with a null body is answered with 500, not with [{ results }].  A
    batch read that returns three records for two ids is passed on whole:
    more than N records. *)
Lemma dangling_association_no_batch_read :
  (axios one_dangling [] (list_associations (JStr "101"))
   = ok (JObj [("results", JArr [dangling])])
   /\ List.length [dangling] = 1%nat
   /\ calls one_dangling get_api_contacts_deals deals_of_101
      = [CAxios (list_associations (JStr "101"))]
   /\ (forall dealIds,
         ~ In (CAxios (batch_read dealIds))
              (calls one_dangling get_api_contacts_deals deals_of_101)))
  /\ (axios Directory.batch_null [CAxios (list_associations (JStr "101"))]
        (batch_read [JStr "9001"; JStr "9002"])
      = Fulfilled (Axios.mkResponse JNull 200)
      /\ sent Directory.batch_null get_api_contacts_deals deals_of_101
         = Fulfilled (mkResponse 500
             (JObj [("error", JStr "Failed to fetch deals for contact");
                    ("details",
                     JStr "Cannot read properties of null (reading 'results')")])))
  /\ (calls Directory.batch_generous get_api_contacts_deals deals_of_101
      = [CAxios (list_associations (JStr "101"));
         CAxios (batch_read [JStr "9001"; JStr "9002"])]
      /\ sent Directory.batch_generous get_api_contacts_deals deals_of_101
         = Fulfilled (mkResponse 200
             (JObj [("results", JArr [renewal; upsell; Directory.extra])]))
      /\ (List.length [renewal; upsell; Directory.extra] > 2)%nat).
Proof.
  split; [|split].
  - repeat split. intros dealIds [H | []]. discriminate H.
  - split; reflexivity.
  - repeat split. apply le_n.
Qed.

(** Contact 101 has deals 9001 and 9002: one batch read for both. *)
Lemma associated_deals_batch_read_witness :
  calls two_deals get_api_contacts_deals deals_of_101
  = [CAxios (Axios.Get "/crm/v4/objects/contacts/101/associations/deals"
               (JObj [("limit", JNum 100)]));
     CAxios (Axios.Post "/crm/v3/objects/deals/batch/read"
               (JObj [("properties",
                       JArr [JStr "dealname"; JStr "amount"; JStr "dealstage";
                             JStr "closedate"; JStr "pipeline"]);
                      ("inputs",
                       JArr [JObj [("id", JStr "9001")];
                             JObj [("id", JStr "9002")]])]))]
  /\ sent two_deals get_api_contacts_deals deals_of_101
     = Fulfilled (mkResponse 200 (JObj [("results", JArr [renewal; upsell])])).
Proof.
  destruct (associated_deals_batch_read two_deals deals_of_101
              (Axios.mkResponse
                 (JObj [("results", JArr [association "9001"; association "9002"])])
                 200)
              [association "9001"; association "9002"])
    as (Hcalls & Hsent & _).
  - reflexivity.
  - reflexivity.
  - discriminate.
  - repeat constructor.
  - split; [exact Hcalls|].
    exact (Hsent (Axios.mkResponse (JObj [("results", JArr [renewal; upsell])]) 200)
             eq_refl eq_refl).
Defined.





(** C1 as stated fails in two places.  On a request without [properties]
    that runs into the duplicate, the response carries [properties: {}],
    which is not the request's (missing) properties.  On a conflict whose
    message is the number 42, no id can be parsed and yet no 409 is sent:
    the handler throws inside its [catch] block. *)
Lemma conflict_without_properties :
  (JS.prop (body bare) "properties" = JUndefined
   /\ sent contact_exists post_api_contacts bare
      = Fulfilled (mkResponse 200
          (JObj [("id", JStr "179556362935");
                 ("properties", JObj []);
                 ("existing", JBool true)]))
   /\ sent contact_exists post_api_contacts bare
      <> Fulfilled (mkResponse 200
           (JObj [("id", JStr "179556362935");
                  ("properties", JS.prop (body bare) "properties");
                  ("existing", JBool true)])))
  /\ (JS.response Edge.odd_conflict
      = Some (Axios.mkResponse
                (JObj [("message", JNum 42); ("category", JStr "CONFLICT")]) 409)
      /\ sent Edge.contact_conflict_odd post_api_contacts new_contact
         = Rejected (JS.TypeError "message.match is not a function")).
Proof.
  split.
  - repeat split. discriminate.
  - split; reflexivity.
Qed.

Lemma duplicate_message_contains_id : ExistingId.contains_id duplicate_message.
Proof.
  exists "Contact already exists. ", " ", "179556362935", EmptyString.
  repeat split. discriminate.
Qed.

(** The duplicate with the existing id in its message, and without. *)
Lemma conflict_resolution_witness :
  (exists pre ws digits post,
     ExistingId.occurrence duplicate_message pre ws digits post
     /\ ExistingId.starts_with_digit post = false
     /\ (forall pre' ws' digits' post',
           ExistingId.occurrence duplicate_message pre' ws' digits' post' ->
           (String.length pre <= String.length pre')%nat)
     /\ sent contact_exists post_api_contacts new_contact
        = Fulfilled (mkResponse 200
            (JObj [("id", JStr digits);
                   ("properties", JObj [("email", JStr "ada@example.com")]);
                   ("existing", JBool true)])))
  /\ sent contact_exists_unnamed post_api_contacts new_contact
     = Fulfilled (mkResponse 409
         (JObj [("error", JStr "Contact already exists");
                ("details",
                 JObj [("status", JStr "error");
                       ("message", JStr "Contact already exists");
                       ("category", JStr "CONFLICT")])])).
Proof.
  split.
  - destruct (conflict_resolution contact_exists new_contact duplicate
                (Axios.mkResponse
                   (JObj [("status", JStr "error");
                          ("message", JStr duplicate_message);
                          ("category", JStr "CONFLICT")]) 409)
                duplicate_message eq_refl eq_refl eq_refl (or_introl eq_refl) eq_refl)
      as [H _].
    exact (H duplicate_message_contains_id).
  - destruct (conflict_resolution contact_exists_unnamed new_contact
                duplicate_unnamed
                (Axios.mkResponse
                   (JObj [("status", JStr "error");
                          ("message", JStr "Contact already exists");
                          ("category", JStr "CONFLICT")]) 409)
                "Contact already exists"
                eq_refl eq_refl eq_refl (or_intror eq_refl) eq_refl)
      as [_ H].
    apply H. now apply ExistingIdFacts.exec_none.
Defined.

(** C8 as stated fails on a request whose [properties] is the string 'x':
    under the duplicate, the response carries that string, which is no
    object. *)
Lemma conflict_echoes_text_properties :
  JS.prop (body Directory.new_contact_text) "properties" = JStr "x"
  /\ sent contact_exists post_api_contacts Directory.new_contact_text
     = Fulfilled (mkResponse 200
         (JObj [("id", JStr "179556362935");
                ("properties", JStr "x");
                ("existing", JBool true)]))
  /\ is_object (JStr "x") = false.
Proof. repeat split. Qed.

(** The duplicate, for a request without [properties] and for one with. *)
Lemma conflict_properties_default_witness :
  (exists digits properties,
     sent contact_exists post_api_contacts bare
     = Fulfilled (mkResponse 200
         (JObj [("id", JStr digits);
                ("properties", properties);
                ("existing", JBool true)]))
     /\ properties = JObj [])
  /\ (exists digits properties,
        sent contact_exists post_api_contacts new_contact
        = Fulfilled (mkResponse 200
            (JObj [("id", JStr digits);
                   ("properties", properties);
                   ("existing", JBool true)]))
        /\ properties = JObj [("email", JStr "ada@example.com")]).
Proof.
  split.
  - destruct (conflict_properties_default contact_exists bare duplicate
                (Axios.mkResponse
                   (JObj [("status", JStr "error");
                          ("message", JStr duplicate_message);
                          ("category", JStr "CONFLICT")]) 409)
                duplicate_message
                eq_refl eq_refl eq_refl (or_introl eq_refl) eq_refl
                duplicate_message_contains_id)
      as (digits & properties & Hsent & Hdefault & _).
    exists digits, properties. split; [exact Hsent | exact (Hdefault eq_refl)].
  - destruct (conflict_properties_default contact_exists new_contact duplicate
                (Axios.mkResponse
                   (JObj [("status", JStr "error");
                          ("message", JStr duplicate_message);
                          ("category", JStr "CONFLICT")]) 409)
                duplicate_message
                eq_refl eq_refl eq_refl (or_introl eq_refl) eq_refl
                duplicate_message_contains_id)
      as (digits & properties & Hsent & _ & _ & _ & Hecho).
    exists digits, properties. split; [exact Hsent | exact (Hecho eq_refl)].
Defined.

(** The same properties, with and without other fields around them. *)
Lemma only_properties_forwarded_witness :
  calls contact_exists post_api_contacts new_contact_tagged
  = [CAxios (Axios.Post "/crm/v3/objects/contacts"
               (JObj [("properties", JObj [("email", JStr "ada@example.com")])]))]
  /\ serve contact_exists post_api_contacts new_contact_tagged
     = serve contact_exists post_api_contacts new_contact.
Proof.
  exact (only_properties_forwarded contact_exists new_contact_tagged new_contact
           eq_refl eq_refl eq_refl).
Defined.

(** Against a CRM that holds Ada and Grace and answers a search by its
    filter: no email; an email nobody has; Ada's email. *)
Lemma find_contact_by_email_witness :
  serve (Directory.crm [Directory.grace; ada]) get_api_contacts_by_email bare
  = (Fulfilled (mkResponse 400
       (JObj [("error", JStr "Missing email parameter");
              ("details", JStr "Please provide ?email=example@domain.com")])),
     [])
  /\ sent (Directory.crm [Directory.grace; ada]) get_api_contacts_by_email
       Directory.by_unknown_email
     = Fulfilled (mkResponse 200 (JObj [("found", JBool false)]))
  /\ sent (Directory.crm [Directory.grace; ada]) get_api_contacts_by_email by_email
     = Fulfilled (mkResponse 200
         (JObj [("found", JBool true);
                ("contact",
                 JObj [("id", JStr "101");
                       ("properties", JObj [("email", JStr "ada@example.com");
                                            ("firstname", JStr "Ada")])])])).
Proof.
  split; [|split].
  - destruct (find_contact_by_email (Directory.crm [Directory.grace; ada]) bare)
      as [H _].
    exact (H eq_refl).
  - destruct (find_contact_by_email (Directory.crm [Directory.grace; ada])
                Directory.by_unknown_email) as [_ H].
    destruct (H eq_refl) as (_ & Hnone & _).
    exact (Hnone (mkSearchResponse (JArr [])) eq_refl (or_introl eq_refl)).
  - destruct (find_contact_by_email (Directory.crm [Directory.grace; ada]) by_email)
      as [_ H].
    destruct (H eq_refl) as (_ & _ & Hfound).
    exact (Hfound (mkSearchResponse (JArr [ada])) ada [] eq_refl eq_refl eq_refl).
Defined.

(* ================================================================== *)
(** ** The pattern, characterised *)

Module ExistingIdSpec.
Import ExistingId ExistingIdFacts.

Lemma take_digits_nondigit s : starts_with_digit s = false -> take_digits s = EmptyString.
Proof. destruct s as [|c s]; simpl; [reflexivity|]. now intros ->. Qed.

(** The leftmost occurrence, its digits not followed by a digit, is what
    the matcher captures. *)
Lemma exec_of_leftmost : forall pre s ws digits post,
  occurrence s pre ws digits post ->
  starts_with_digit post = false ->
  (forall pre' ws' digits' post',
     occurrence s pre' ws' digits' post' ->
     (String.length pre <= String.length pre')%nat) ->
  exec s = Some digits.
Proof.
  induction pre as [|c pre IH]; intros s ws digits post (E & Hws & Hd & Hne) N L.
  - apply exec_here. rewrite E.
    change (match_here ("Existing ID:" ++ ws ++ digits ++ post) = Some digits).
    rewrite (match_here_occurrence ws digits post Hws Hd Hne).
    rewrite (take_digits_nondigit _ N). f_equal.
    clear. induction digits as [|d digits IHd]; simpl; [reflexivity | now f_equal].
  - rewrite E. rewrite exec_eq.
    destruct (match_here (String c pre ++ "Existing ID:" ++ ws ++ digits ++ post))
      as [d|] eqn:M.
    + exfalso. destruct (match_here_sound _ _ M) as (ws0 & post0 & O & _).
      rewrite <- E in O. specialize (L _ _ _ _ O). simpl in L. lia.
    + apply (IH _ ws digits post); [now repeat split | assumption |].
      intros pre' ws' digits' post' (E' & Hws' & Hd' & Hne').
      assert (O : occurrence s (String c pre') ws' digits' post').
      { unfold occurrence. repeat split; try assumption.
        rewrite E. simpl. f_equal. exact E'. }
      specialize (L _ _ _ _ O). simpl in L. lia.
Qed.

(** X1. [message.match(/Existing ID:\s*(\d+)/)] captures [digits] exactly
    when [digits] is the run of digits of the leftmost place where the
    message reads the label, any white space, and at least one digit, the
    run taken as far as digits go. *)
Theorem exec_iff_leftmost_occurrence s digits :
  exec s = Some digits
  <-> exists pre ws post,
        occurrence s pre ws digits post
        /\ starts_with_digit post = false
        /\ (forall pre' ws' digits' post',
              occurrence s pre' ws' digits' post' ->
              (String.length pre <= String.length pre')%nat).
Proof.
  split.
  - apply exec_leftmost.
  - intros (pre & ws & post & O & N & L). exact (exec_of_leftmost pre s ws digits post O N L).
Qed.

End ExistingIdSpec.

(* ================================================================== *)
(** ** POST /api/contacts: the paths besides the parsed conflict *)

Section PostApiContactsPaths.

Variable up : Upstream.
Variable req : Request.

Local Abbreviation properties := (JS.prop (body req) "properties").
Local Abbreviation create := (create_contact (JObj [("properties", properties)])).

Lemma contacts_after_body :
  JS.nullish (body req) = false ->
  serve up post_api_contacts req
  = run up [CAxios create]
      (match axios up [] create with
       | Fulfilled response => res_json (Axios.data response)
       | Rejected error =>
           if is_conflict error then
             match_ <- message_match (hubspot_message error);;
             let existingId :=
               if JS.truthy (captured match_) then captured match_ else JNull in
             if JS.truthy existingId then
               res_json (JObj [("id", existingId);
                               ("properties", JS.or properties (JObj []));
                               ("existing", JBool true)])
             else
               res_status_json 409
                 (error_body "Contact already exists"
                    (JS.or (response_data error) (hubspot_message error)))
           else
             res_status_json 500
               (error_body "Failed to create contact"
                  (JS.or (response_data error) (JStr (JS.message error))))
       end).
Proof.
  intros Hb. unfold serve, post_api_contacts, member.
  rewrite !(read_present _ _ Hb). cbn.
  destruct (axios up [] create) as [r|e]; reflexivity.
Qed.

(** X2. A contact the CRM creates is answered with 200 and the CRM's
    reply body as it came, whatever it holds; the create call is the only
    upstream call. *)
Theorem created_contact_passed_through r :
  JS.nullish (body req) = false ->
  axios up [] create = Fulfilled r ->
  serve up post_api_contacts req
  = (Fulfilled (mkResponse 200 (Axios.data r)), [CAxios create]).
Proof. intros Hb Hr. rewrite (contacts_after_body Hb). now rewrite Hr. Qed.

(** X3. A failed create call that is no conflict (status other than 409
    and category other than CONFLICT, or no reply at all) is answered with
    500, the label 'Failed to create contact' and, under [details], the
    CRM's error payload, or the error message when there is no payload. *)
Theorem contact_failure_500 e :
  JS.nullish (body req) = false ->
  axios up [] create = Rejected e ->
  is_conflict e = false ->
  serve up post_api_contacts req
  = (Fulfilled (mkResponse 500
       (JObj [("error", JStr "Failed to create contact");
              ("details", JS.or (response_data e) (JStr (JS.message e)))])),
     [CAxios create])
  /\ (JS.response e = None ->
      JS.or (response_data e) (JStr (JS.message e)) = JStr (JS.message e)).
Proof.
  intros Hb He Hc. rewrite (contacts_after_body Hb). rewrite He, Hc. split.
  - reflexivity.
  - intros Hn. unfold response_data. now rewrite Hn.
Qed.

(** X4. A 409 whose reply has no payload (an empty body) falls to the 409
    answer with the empty string under [details]: the fallback of that
    branch is the CRM message, defaulted to the empty string, and not the
    error's own message. *)
Theorem conflict_without_payload e r :
  JS.nullish (body req) = false ->
  axios up [] create = Rejected e ->
  JS.response e = Some r ->
  Axios.status r = 409%Z ->
  JS.truthy (Axios.data r) = false ->
  serve up post_api_contacts req
  = (Fulfilled (mkResponse 409
       (JObj [("error", JStr "Contact already exists");
              ("details", JStr EmptyString)])),
     [CAxios create]).
Proof.
  intros Hb He Hr Hs Hd. rewrite (contacts_after_body Hb). rewrite He.
  assert (Hc : is_conflict e = true).
  { unfold is_conflict, response_status. rewrite Hr, Hs. reflexivity. }
  assert (Hm : hubspot_message e = JStr EmptyString).
  { unfold hubspot_message, response_data. rewrite Hr.
    destruct (Axios.data r); try discriminate; reflexivity. }
  rewrite Hc, Hm. cbn.
  unfold response_data. rewrite Hr. now rewrite (or_falsy _ _ Hd).
Qed.

(** X5. The handler leaves a request unanswered (its promise rejects) in
    one case only: the create call failed as a conflict and the CRM
    payload carries a truthy [message] that is no string, so that
    [message.match] is no function and the [catch] block itself throws. *)
Theorem contact_unanswered_iff :
  (exists err, sent up post_api_contacts req = Rejected err)
  <-> (JS.nullish (body req) = false
       /\ exists e, axios up [] create = Rejected e
                    /\ is_conflict e = true
                    /\ is_string (hubspot_message e) = false).
Proof.
  split.
  - intros [err H]. unfold sent in H.
    destruct (JS.nullish (body req)) eqn:Hb.
    + exfalso. revert H. unfold serve, post_api_contacts, member, read.
      rewrite Hb. discriminate.
    + split; [reflexivity|]. rewrite (contacts_after_body Hb) in H.
      destruct (axios up [] create) as [r|e]; [discriminate H|].
      exists e. split; [reflexivity|].
      destruct (is_conflict e); [|discriminate H]. split; [reflexivity|].
      destruct (hubspot_message e) as [| |b|n|s|l|fs]; try reflexivity.
      exfalso. revert H. cbn.
      destruct (ExistingId.exec s) as [digits|]; cbn; [|discriminate].
      destruct (negb (digits =? EmptyString)); cbn; [|discriminate].
      destruct (negb (digits =? EmptyString)); discriminate.
  - intros (Hb & e & He & Hc & Hm). unfold sent.
    rewrite (contacts_after_body Hb). rewrite He, Hc.
    destruct (hubspot_message e); try discriminate; cbn; eauto.
Qed.

(** X6. A request without a body is answered with 500 and the text of
    the TypeError that reading [properties] raised; no upstream call is
    made. *)
Theorem contact_without_body :
  JS.nullish (body req) = true ->
  serve up post_api_contacts req
  = (Fulfilled (mkResponse 500
       (JObj [("error", JStr "Failed to create contact");
              ("details",
               JStr ("Cannot read properties of " ++ JS.to_string (body req)
                       ++ " (reading 'properties')"))])),
     []).
Proof.
  intros Hb. unfold serve, post_api_contacts, member, read. now rewrite Hb.
Qed.

(** X7. Under a conflict whose message is a string (or missing), the
    answer is 200 exactly when the message contains an id and 409
    otherwise, never 500; a 200 carries under [id] a non-empty string of
    decimal digits. *)
Theorem conflict_answer_by_message e msg :
  JS.nullish (body req) = false ->
  axios up [] create = Rejected e ->
  is_conflict e = true ->
  hubspot_message e = JStr msg ->
  exists resp,
    sent up post_api_contacts req = Fulfilled resp
    /\ (status resp = 200%Z <-> ExistingId.contains_id msg)
    /\ (status resp = 409%Z <-> ~ ExistingId.contains_id msg)
    /\ (status resp = 200%Z ->
        exists digits,
          JS.prop (json resp) "id" = JStr digits
          /\ ExistingId.all ExistingId.is_digit digits = true
          /\ digits <> EmptyString).
Proof.
  intros Hb He Hc Hm. unfold sent.
  rewrite (conflict_outcome up req e msg Hb He Hc Hm).
  destruct (ExistingId.exec msg) as [digits|] eqn:E; eexists; (split; [reflexivity|]).
  - assert (Hin : ExistingId.contains_id msg).
    { destruct (ExistingIdFacts.exec_sound _ _ E) as (pre & ws & post & O & _).
      now exists pre, ws, digits, post. }
    destruct (ExistingIdFacts.exec_sound _ _ E)
      as (pre & ws & post & (_ & _ & Hd & Hne) & _).
    cbn. split; [split; auto|].
    split; [split; [discriminate | intros H; exfalso; now apply H]|].
    intros _. now exists digits.
  - apply ExistingIdFacts.exec_none in E.
    cbn. split; [split; [discriminate | intros H; exfalso; now apply E]|].
    split; [split; auto | discriminate].
Qed.

End PostApiContactsPaths.

(* ================================================================== *)
(** ** POST /api/deals: the failure paths *)

Section PostApiDealsPaths.

Variable up : Upstream.
Variable req : Request.

Local Abbreviation dealProperties := (JS.prop (body req) "dealProperties").
Local Abbreviation contactId := (JS.prop (body req) "contactId").
Local Abbreviation create := (create_deal dealProperties).

(** X8. The deal handler leaves a request unanswered exactly when the
    request has no body: the destructuring of [req.body] stands outside
    the [try] block, so its TypeError is caught by nothing; no upstream
    call is made then. *)
Theorem deal_unanswered_iff :
  ((exists err, sent up post_api_deals req = Rejected err)
   <-> JS.nullish (body req) = true)
  /\ (JS.nullish (body req) = true -> calls up post_api_deals req = []).
Proof.
  split; [split|].
  - intros [err H]. destruct (JS.nullish (body req)) eqn:Hb; [reflexivity|].
    exfalso. revert H. unfold sent, serve, post_api_deals, destructure.
    rewrite Hb. cbn [bind ret].
    destruct (negb (JS.truthy dealProperties) || negb (JS.truthy contactId));
      [discriminate|].
    cbn. destruct (axios up [] create) as [r|e]; cbn; [|discriminate].
    destruct (read (Axios.data r) "id") as [dealId|e]; cbn; [|discriminate].
    destruct (axios up [CAxios create] (associate dealId contactId));
      discriminate.
  - intros Hb. unfold sent, serve, post_api_deals, destructure.
    rewrite Hb. cbn. eauto.
  - intros Hb. unfold calls, serve, post_api_deals, destructure. now rewrite Hb.
Qed.

(** X9. When the CRM refuses the deal, the response is 500 with the label
    'Failed to create deal' and the CRM's error payload (or the error
    message) under [details]; the association is not attempted. *)
Theorem rejected_deal_500 e :
  JS.truthy dealProperties = true -> JS.truthy contactId = true ->
  axios up [] create = Rejected e ->
  serve up post_api_deals req
  = (Fulfilled (mkResponse 500
       (JObj [("error", JStr "Failed to create deal");
              ("details", JS.or (response_data e) (JStr (JS.message e)))])),
     [CAxios create]).
Proof.
  intros Hd Hc He. rewrite (deals_validated up req Hd Hc). cbn. now settle He.
Qed.


End PostApiDealsPaths.

(* ================================================================== *)
(** ** GET /api/contacts/:contactId/deals: the failure paths *)

Section GetApiContactsDealsPaths.

Variable up : Upstream.
Variable req : Request.

Local Abbreviation contactId := (JS.lookup "contactId" (params req)).
Local Abbreviation listing := (list_associations contactId).
Local Abbreviation toObjectId := (fun assoc => JS.prop assoc "toObjectId").
Local Abbreviation failed e :=
  (Fulfilled (mkResponse 500
     (JObj [("error", JStr "Failed to fetch deals for contact");
            ("details", JS.or (response_data e) (JStr (JS.message e)))]))).


Lemma map_settled_read_null k : forall l a,
  In a l -> JS.nullish a = true ->
  exists e, map_settled (fun a => read a k) l = Rejected e.
Proof.
  induction l as [|x l IH]; intros a Hin Hn; [destruct Hin|].
  simpl. destruct (read x k) as [y|e] eqn:R; [|eauto].
  destruct Hin as [-> | Hin].
  - unfold read in R. rewrite Hn in R. discriminate.
  - destruct (IH a Hin Hn) as [e ->]. eauto.
Qed.

(** X12. A listing the handler cannot walk is answered with 500 and no
    batch read: one whose [results] is truthy and no array ([map] is no
    function of it), and one that holds a null record (reading its
    [toObjectId] throws). *)
Theorem unwalkable_listing_500 r :
  axios up [] listing = Fulfilled r ->
  (forall v,
     JS.prop (Axios.data r) "results" = v ->
     JS.truthy v = true ->
     (forall l, v <> JArr l) ->
     serve up get_api_contacts_deals req
     = (Fulfilled (mkResponse 500
          (JObj [("error", JStr "Failed to fetch deals for contact");
                 ("details", JStr "associations.map is not a function")])),
        [CAxios listing]))
  /\ (forall assocs a,
        JS.prop (Axios.data r) "results" = JArr assocs ->
        In a assocs -> JS.nullish a = true ->
        exists text,
          serve up get_api_contacts_deals req
          = (Fulfilled (mkResponse 500
               (JObj [("error", JStr "Failed to fetch deals for contact");
                      ("details", JStr text)])),
             [CAxios listing])).
Proof.
  intros Hr. split.
  - intros v Hv Ht Hna. serve_handler get_api_contacts_deals. settle Hr.
    rewrite (read_present _ _ (present_of_truthy_prop _ _
               (eq_ind_r (fun x => JS.truthy x = true) Ht Hv))).
    cbn. rewrite Hv, (or_truthy _ _ Ht).
    destruct v; try reflexivity. exfalso. now apply (Hna elems).
  - intros assocs a Ha Hin Hn. serve_handler get_api_contacts_deals. settle Hr.
    rewrite (read_present _ _ (present_of_array_prop _ _ _ Ha)). cbn.
    rewrite Ha. cbn.
    destruct (map_settled_read_null "toObjectId" assocs a Hin Hn) as [e He].
    assert (Hshape : exists text, e = JS.TypeError text).
    { clear - He. revert e He.
      induction assocs as [|x l IH]; intros e He; [discriminate|].
      simpl in He. unfold read at 1 in He.
      destruct (JS.nullish x).
      - inversion He. eauto.
      - destruct (map_settled _ l) as [ys|e'] eqn:M; [discriminate|].
        inversion He. subst. now apply IH. }
    destruct Hshape as [text ->]. rewrite He. cbn. now exists text.
Qed.

End GetApiContactsDealsPaths.

(* ================================================================== *)
(** ** GET /api/contacts/by-email: validation and failure *)

Section GetApiContactsByEmailPaths.

Variable up : Upstream.
Variable req : Request.

Local Abbreviation email := (JS.lookup "email" (query req)).

(** X13. An [email] parameter that is there but falsy, the empty string
    of [?email=] for one, is refused like a missing one: 400 and no
    upstream call. *)
Theorem falsy_email_refused :
  JS.truthy email = false ->
  serve up get_api_contacts_by_email req
  = (Fulfilled (mkResponse 400
       (JObj [("error", JStr "Missing email parameter");
              ("details", JStr "Please provide ?email=example@domain.com")])),
     []).
Proof.
  intros He. unfold serve, get_api_contacts_by_email. now rewrite He.
Qed.

(** X14. A failed search is answered with 500 and, under [details], the
    error's message, or the error printed when its message is empty; the
    search is the only upstream call, it is not retried. *)
Theorem search_failure_500 e :
  JS.truthy email = true ->
  search up [] (search_by_email email) = Rejected e ->
  serve up get_api_contacts_by_email req
  = (Fulfilled (mkResponse 500
       (JObj [("error", JStr "Failed to search contact by email");
              ("details",
               JStr (if JS.message e =? EmptyString
                     then JS.error_to_string e else JS.message e))])),
     [CSearch (search_by_email email)]).
Proof.
  intros He Hs. serve_handler get_api_contacts_by_email. rewrite He. cbn.
  settle Hs. unfold JS.or. cbn.
  now destruct (JS.message e =? EmptyString).
Qed.

(** X15. A search whose first record is null is answered with 500: the
    handler reads [id] off the record without a check. *)
Theorem null_first_record_500 r others contact :
  JS.truthy email = true ->
  search up [] (search_by_email email) = Fulfilled r ->
  results r = JArr (contact :: others) ->
  JS.nullish contact = true ->
  serve up get_api_contacts_by_email req
  = (Fulfilled (mkResponse 500
       (JObj [("error", JStr "Failed to search contact by email");
              ("details",
               JStr ("Cannot read properties of " ++ JS.to_string contact
                       ++ " (reading 'id')"))])),
     [CSearch (search_by_email email)]).
Proof.
  intros He Hs Hres Hc. serve_handler get_api_contacts_by_email. rewrite He. cbn.
  settle Hs. rewrite Hres. cbn. unfold read. rewrite Hc. cbn.
  destruct contact; try discriminate; reflexivity.
Qed.

End GetApiContactsByEmailPaths.

(* ================================================================== *)
(** ** GET /api/deals *)

Section GetApiDeals.

Variable up : Upstream.
Variable req : Request.

Local Abbreviation listing := (list_objects "/crm/v3/objects/deals" deal_properties).

(** X16. Listing deals issues exactly one upstream call, the deal listing
    with page size 50 and the properties dealname, amount, dealstage,
    closedate, pipeline, whatever the outcome.  A fulfilled call is
    answered with 200 and the CRM's [results], or the empty array when
    [results] is missing or falsy; a reply with a null body and a failed
    call are answered with 500 and the label 'Failed to fetch deals'. *)
Theorem get_api_deals_contract :
  listing
  = Axios.Get "/crm/v3/objects/deals"
      (JObj [("limit", JNum 50);
             ("properties", JStr "dealname,amount,dealstage,closedate,pipeline")])
  /\ calls up get_api_deals req = [CAxios listing]
  /\ (forall r,
        axios up [] listing = Fulfilled r ->
        JS.nullish (Axios.data r) = false ->
        sent up get_api_deals req
        = Fulfilled (mkResponse 200
            (JObj [("results",
                    if JS.truthy (JS.prop (Axios.data r) "results")
                    then JS.prop (Axios.data r) "results" else JArr [])])))
  /\ (forall r,
        axios up [] listing = Fulfilled r ->
        JS.nullish (Axios.data r) = true ->
        sent up get_api_deals req
        = Fulfilled (mkResponse 500
            (JObj [("error", JStr "Failed to fetch deals");
                   ("details",
                    JStr ("Cannot read properties of "
                            ++ JS.to_string (Axios.data r)
                            ++ " (reading 'results')"))])))
  /\ (forall e,
        axios up [] listing = Rejected e ->
        sent up get_api_deals req
        = Fulfilled (mkResponse 500
            (JObj [("error", JStr "Failed to fetch deals");
                   ("details", JS.or (response_data e) (JStr (JS.message e)))]))).
Proof.
  split; [reflexivity|]. split; [|split; [|split]].
  - serve_handler get_api_deals.
    destruct (axios up [] listing) as [r|e]; cbn; [|reflexivity].
    destruct (read (Axios.data r) "results"); reflexivity.
  - intros r Hr Hd. serve_handler get_api_deals. settle Hr.
    now rewrite (read_present _ _ Hd).
  - intros r Hr Hd. serve_handler get_api_deals. settle Hr.
    unfold read. now rewrite Hd.
  - intros e He. serve_handler get_api_deals. now settle He.
Qed.

End GetApiDeals.

(* ================================================================== *)
(** ** All routes *)

(** Walking every path of a handler: each upstream outcome, each property
    read that may throw, each test. *)
Ltac explore :=
  repeat (cbn;
    match goal with
    | |- context [match axios ?u ?l ?c with _ => _ end] =>
        destruct (axios u l c) eqn:?
    | |- context [match search ?u ?l ?c with _ => _ end] =>
        destruct (search u l c) eqn:?
    | |- context [match read ?v ?k with _ => _ end] =>
        destruct (read v k) eqn:?
    | |- context [match map_settled ?f ?l with _ => _ end] =>
        destruct (map_settled f l) eqn:?
    | |- context [array_map ?v _ _] => destruct v eqn:?
    | |- context [message_match ?v] => destruct v eqn:?
    | |- context [captured (ExistingId.exec ?s)] =>
        destruct (ExistingId.exec s) eqn:?
    | |- context [if ?b then _ else _] => destruct b eqn:?
    end).

Ltac walk h := unfold calls, sent, serve, h, destructure; explore; cbn.

Section AllRoutes.

Variable up : Upstream.
Variable req : Request.

(** X17. No route calls the CRM more than twice for one request, whatever
    the CRM answers: nothing is retried and no page is followed.  The two
    listings issue exactly one call; contact creation and the email
    search at most one; deal creation at most two; the deals of a contact
    one or two. *)
Theorem upstream_call_bounds :
  List.length (calls up get_api_contacts req) = 1%nat
  /\ List.length (calls up get_api_deals req) = 1%nat
  /\ (List.length (calls up post_api_contacts req) <= 1)%nat
  /\ (List.length (calls up get_api_contacts_by_email req) <= 1)%nat
  /\ (List.length (calls up post_api_deals req) <= 2)%nat
  /\ (1 <= List.length (calls up get_api_contacts_deals req) <= 2)%nat.
Proof.
  repeat apply conj.
  - walk get_api_contacts; reflexivity.
  - walk get_api_deals; reflexivity.
  - walk post_api_contacts; cbn; lia.
  - walk get_api_contacts_by_email; cbn; lia.
  - walk post_api_deals; cbn; lia.
  - walk get_api_contacts_deals; cbn; lia.
  - walk get_api_contacts_deals; cbn; lia.
Qed.

(** X18. The four GET routes answer every request, whatever the CRM does:
    each failure inside them is caught and turned into a response. *)
Theorem get_routes_always_answer :
  (exists resp, sent up get_api_contacts req = Fulfilled resp)
  /\ (exists resp, sent up get_api_deals req = Fulfilled resp)
  /\ (exists resp, sent up get_api_contacts_by_email req = Fulfilled resp)
  /\ (exists resp, sent up get_api_contacts_deals req = Fulfilled resp).
Proof.
  repeat apply conj.
  - walk get_api_contacts; eauto.
  - walk get_api_deals; eauto.
  - walk get_api_contacts_by_email; eauto.
  - walk get_api_contacts_deals; eauto.
Qed.

(** X19. The status codes each route can answer with: the listings and
    the deals of a contact 200 or 500; the email search 200, 400 or 500;
    contact creation 200, 409 or 500; deal creation 200, 400 or 500. *)
Theorem route_status_codes resp :
  (sent up get_api_contacts req = Fulfilled resp -> In (status resp) [200; 500]%Z)
  /\ (sent up get_api_deals req = Fulfilled resp -> In (status resp) [200; 500]%Z)
  /\ (sent up get_api_contacts_deals req = Fulfilled resp ->
      In (status resp) [200; 500]%Z)
  /\ (sent up get_api_contacts_by_email req = Fulfilled resp ->
      In (status resp) [200; 400; 500]%Z)
  /\ (sent up post_api_contacts req = Fulfilled resp ->
      In (status resp) [200; 409; 500]%Z)
  /\ (sent up post_api_deals req = Fulfilled resp ->
      In (status resp) [200; 400; 500]%Z).
Proof.
  repeat apply conj.
  - walk get_api_contacts; intros H; inversion H; cbn; tauto.
  - walk get_api_deals; intros H; inversion H; cbn; tauto.
  - walk get_api_contacts_deals; intros H; inversion H; cbn; tauto.
  - walk get_api_contacts_by_email; intros H; inversion H; cbn; tauto.
  - walk post_api_contacts; intros H; inversion H; cbn; tauto.
  - walk post_api_deals; intros H; inversion H; cbn; tauto.
Qed.

(** X20. Every response of an API route that is no 200 has the same
    shape: an object with a non-empty [error] label and a [details] field,
    and nothing else. *)
Theorem error_responses_labelled h resp :
  In h api_handlers ->
  sent up h req = Fulfilled resp ->
  status resp <> 200%Z ->
  exists label details,
    json resp = JObj [("error", JStr label); ("details", details)]
    /\ label <> EmptyString.
Proof.
  intros Hin. unfold api_handlers in Hin. simpl in Hin.
  destruct Hin as [<- | [<- | [<- | [<- | [<- | [<- | []]]]]]].
  - walk get_api_contacts; intros H N; inversion H; subst; cbn in *;
      try congruence; (do 2 eexists; split; [reflexivity | discriminate]).
  - walk post_api_contacts; intros H N; inversion H; subst; cbn in *;
      try congruence; (do 2 eexists; split; [reflexivity | discriminate]).
  - walk get_api_contacts_by_email; intros H N; inversion H; subst; cbn in *;
      try congruence; (do 2 eexists; split; [reflexivity | discriminate]).
  - walk get_api_deals; intros H N; inversion H; subst; cbn in *;
      try congruence; (do 2 eexists; split; [reflexivity | discriminate]).
  - walk post_api_deals; intros H N; inversion H; subst; cbn in *;
      try congruence; (do 2 eexists; split; [reflexivity | discriminate]).
  - walk get_api_contacts_deals; intros H N; inversion H; subst; cbn in *;
      try congruence; (do 2 eexists; split; [reflexivity | discriminate]).
Qed.

End AllRoutes.

(** X21. Each route reads of the request only what it needs: the listings
    nothing, the email search the [email] query parameter, the deals of a
    contact the [contactId] path parameter, deal creation the body's
    [dealProperties] and [contactId].  Two requests that agree there are
    served alike, in upstream calls and in response. *)
Theorem routes_read_only_their_inputs up req1 req2 :
  serve up get_api_contacts req1 = serve up get_api_contacts req2
  /\ serve up get_api_deals req1 = serve up get_api_deals req2
  /\ (JS.lookup "email" (query req1) = JS.lookup "email" (query req2) ->
      serve up get_api_contacts_by_email req1
      = serve up get_api_contacts_by_email req2)
  /\ (JS.lookup "contactId" (params req1) = JS.lookup "contactId" (params req2) ->
      serve up get_api_contacts_deals req1 = serve up get_api_contacts_deals req2)
  /\ (JS.nullish (body req1) = false -> JS.nullish (body req2) = false ->
      JS.prop (body req1) "dealProperties" = JS.prop (body req2) "dealProperties" ->
      JS.prop (body req1) "contactId" = JS.prop (body req2) "contactId" ->
      serve up post_api_deals req1 = serve up post_api_deals req2).
Proof.
  repeat apply conj.
  - reflexivity.
  - reflexivity.
  - intros H. unfold serve, get_api_contacts_by_email. now rewrite H.
  - intros H. unfold serve, get_api_contacts_deals. now rewrite H.
  - intros H1 H2 Hd Hc. unfold serve, post_api_deals, destructure.
    rewrite H1, H2. cbn [bind ret]. now rewrite Hd, Hc.
Qed.

(* ================================================================== *)
(** ** The further properties on sample requests *)

Import Scenario Edge.

Lemma created_contact_passed_through_witness :
  serve contact_created post_api_contacts new_contact
  = (Fulfilled (mkResponse 200 ada),
     [CAxios (create_contact
                (JObj [("properties", JObj [("email", JStr "ada@example.com")])]))]).
Proof.
  exact (created_contact_passed_through contact_created new_contact
           (Axios.mkResponse ada 200) eq_refl eq_refl).
Defined.

Lemma contact_failure_500_witness :
  fst (serve contact_invalid post_api_contacts new_contact)
  = Fulfilled (mkResponse 500
      (JObj [("error", JStr "Failed to create contact");
             ("details",
              JObj [("status", JStr "error");
                    ("message", JStr "Property values were not valid");
                    ("category", JStr "VALIDATION_ERROR")])]))
  /\ fst (serve down post_api_contacts new_contact)
     = Fulfilled (mkResponse 500
         (JObj [("error", JStr "Failed to create contact");
                ("details", JStr "connect ECONNREFUSED 127.0.0.1:443")])).
Proof.
  split.
  - exact (f_equal fst (proj1 (contact_failure_500 contact_invalid new_contact
                                 invalid eq_refl eq_refl eq_refl))).
  - exact (f_equal fst (proj1 (contact_failure_500 down new_contact
                                 network_error eq_refl eq_refl eq_refl))).
Defined.

Lemma conflict_without_payload_witness :
  serve contact_conflict_bare post_api_contacts new_contact
  = (Fulfilled (mkResponse 409
       (JObj [("error", JStr "Contact already exists");
              ("details", JStr EmptyString)])),
     [CAxios (create_contact
                (JObj [("properties", JObj [("email", JStr "ada@example.com")])]))]).
Proof.
  exact (conflict_without_payload contact_conflict_bare new_contact bare_conflict
           (Axios.mkResponse (JStr EmptyString) 409)
           eq_refl eq_refl eq_refl eq_refl eq_refl).
Defined.

Lemma contact_unanswered_iff_witness :
  exists err, sent contact_conflict_odd post_api_contacts new_contact = Rejected err.
Proof.
  apply (proj2 (contact_unanswered_iff contact_conflict_odd new_contact)).
  split; [reflexivity|]. exists odd_conflict. now repeat split.
Defined.

Lemma contact_without_body_witness :
  serve healthy post_api_contacts no_body
  = (Fulfilled (mkResponse 500
       (JObj [("error", JStr "Failed to create contact");
              ("details",
               JStr "Cannot read properties of undefined (reading 'properties')")])),
     []).
Proof. exact (contact_without_body healthy no_body eq_refl). Defined.

Lemma conflict_answer_by_message_witness :
  exists resp,
    sent contact_exists post_api_contacts new_contact = Fulfilled resp
    /\ (status resp = 200%Z <-> ExistingId.contains_id duplicate_message)
    /\ (status resp = 409%Z <-> ~ ExistingId.contains_id duplicate_message)
    /\ (status resp = 200%Z ->
        exists digits,
          JS.prop (json resp) "id" = JStr digits
          /\ ExistingId.all ExistingId.is_digit digits = true
          /\ digits <> EmptyString).
Proof.
  exact (conflict_answer_by_message contact_exists new_contact duplicate
           duplicate_message eq_refl eq_refl eq_refl eq_refl).
Defined.

Lemma deal_unanswered_iff_witness :
  (exists err, sent healthy post_api_deals no_body = Rejected err)
  /\ calls healthy post_api_deals no_body = [].
Proof.
  destruct (deal_unanswered_iff healthy no_body) as [[_ H] Hcalls].
  split; [exact (H eq_refl) | exact (Hcalls eq_refl)].
Defined.

Lemma rejected_deal_500_witness :
  serve deal_rejected post_api_deals new_deal
  = (Fulfilled (mkResponse 500
       (JObj [("error", JStr "Failed to create deal");
              ("details",
               JObj [("status", JStr "error");
                     ("message", JStr "Property values were not valid");
                     ("category", JStr "VALIDATION_ERROR")])])),
     [CAxios (create_deal (JObj [("dealname", JStr "Renewal")]))]).
Proof.
  exact (rejected_deal_500 deal_rejected new_deal invalid eq_refl eq_refl eq_refl).
Defined.



Lemma unwalkable_listing_500_witness :
  serve listing_object get_api_contacts_deals deals_of_101
  = (Fulfilled (mkResponse 500
       (JObj [("error", JStr "Failed to fetch deals for contact");
              ("details", JStr "associations.map is not a function")])),
     [CAxios (list_associations (JStr "101"))])
  /\ exists text,
       serve listing_null_record get_api_contacts_deals deals_of_101
       = (Fulfilled (mkResponse 500
            (JObj [("error", JStr "Failed to fetch deals for contact");
                   ("details", JStr text)])),
          [CAxios (list_associations (JStr "101"))]).
Proof.
  split.
  - apply (proj1 (unwalkable_listing_500 listing_object deals_of_101
                    (Axios.mkResponse (JObj [("results", JObj [("total", JNum 0)])]) 200)
                    eq_refl) (JObj [("total", JNum 0)])).
    + reflexivity.
    + reflexivity.
    + discriminate.
  - apply (proj2 (unwalkable_listing_500 listing_null_record deals_of_101
                    (Axios.mkResponse
                       (JObj [("results", JArr [association "9001"; JNull])]) 200)
                    eq_refl) [association "9001"; JNull] JNull).
    + reflexivity.
    + right. left. reflexivity.
    + reflexivity.
Defined.

Lemma falsy_email_refused_witness :
  serve healthy get_api_contacts_by_email empty_email
  = (Fulfilled (mkResponse 400
       (JObj [("error", JStr "Missing email parameter");
              ("details", JStr "Please provide ?email=example@domain.com")])),
     []).
Proof. exact (falsy_email_refused healthy empty_email eq_refl). Defined.

Lemma search_failure_500_witness :
  serve down get_api_contacts_by_email by_email
  = (Fulfilled (mkResponse 500
       (JObj [("error", JStr "Failed to search contact by email");
              ("details", JStr "connect ECONNREFUSED 127.0.0.1:443")])),
     [CSearch (search_by_email (JStr "ada@example.com"))]).
Proof.
  exact (search_failure_500 down by_email network_error eq_refl eq_refl).
Defined.

Lemma null_first_record_500_witness :
  serve search_null_record get_api_contacts_by_email by_email
  = (Fulfilled (mkResponse 500
       (JObj [("error", JStr "Failed to search contact by email");
              ("details", JStr "Cannot read properties of null (reading 'id')")])),
     [CSearch (search_by_email (JStr "ada@example.com"))]).
Proof.
  exact (null_first_record_500 search_null_record by_email
           (mkSearchResponse (JArr [JNull])) [] JNull
           eq_refl eq_refl eq_refl eq_refl).
Defined.

Lemma get_api_deals_contract_witness :
  sent two_deals get_api_deals bare
  = Fulfilled (mkResponse 200
      (JObj [("results", JArr [association "9001"; association "9002"])]))
  /\ sent deal_null get_api_deals bare
     = Fulfilled (mkResponse 500
         (JObj [("error", JStr "Failed to fetch deals");
                ("details", JStr "connect ECONNREFUSED 127.0.0.1:443")])).
Proof.
  split.
  - destruct (get_api_deals_contract two_deals bare) as (_ & _ & H & _).
    exact (H (Axios.mkResponse
                (JObj [("results", JArr [association "9001"; association "9002"])]) 200)
             eq_refl eq_refl).
  - destruct (get_api_deals_contract deal_null bare) as (_ & _ & _ & _ & H).
    exact (H network_error eq_refl).
Defined.

Lemma error_responses_labelled_witness :
  exists label details,
    JObj [("error", JStr "Contact already exists"); ("details", JStr EmptyString)]
    = JObj [("error", JStr label); ("details", details)]
    /\ label <> EmptyString.
Proof.
  apply (error_responses_labelled contact_conflict_bare new_contact
           post_api_contacts
           (mkResponse 409
              (JObj [("error", JStr "Contact already exists");
                     ("details", JStr EmptyString)]))).
  - right. left. reflexivity.
  - reflexivity.
  - discriminate.
Defined.
